(** * GGUF to Transformer conversion (gguf_util/convert_from_gguf.py)

    A shallow embedding of the converter and the proofs of its specified
    properties.  Python values are modelled with their dynamic types where
    the code relies on them (metadata values), dictionaries are stdpp
    [gmap]s keyed by strings, the [torch.nn.Module] object graph is a tree
    of attribute tables, and exceptions are an explicit error type that
    records the raising statement.  Names that a function uses without the
    module binding them raise NameError where Python raises it, and the
    loop header of line 132, which is not Python, is embedded as it is
    written and as the specification reads it. *)

From Stdlib Require Import ZArith List String Ascii Bool Lia Floats DecimalString.
From stdpp Require Import base option gmap strings.
Import ListNotations.

Local Open Scope string_scope.
Local Open Scope Z_scope.

(** ** Python strings *)

Module PyStr.

(** [sub in s] *)
Fixpoint contains (sub s : string) : bool :=
  String.prefix sub s
  || match s with
     | EmptyString => false
     | String _ r => contains sub r
     end.

(** [s.replace("", new)]: [new] is inserted before every character and at
    the end. *)
Fixpoint replace_empty (new s : string) : string :=
  match s with
  | EmptyString => new
  | String c r => new ++ String c (replace_empty new r)
  end.

(** [s.replace(old, new)] for a non-empty [old], scanning left to right;
    [skip] counts the characters of a matched occurrence still to drop, so
    occurrences never overlap. *)
Fixpoint replace_from (old new : string) (skip : nat) (s : string) : string :=
  match s with
  | EmptyString => EmptyString
  | String c r =>
      match skip with
      | S k => replace_from old new k r
      | O =>
          if String.prefix old s
          then new ++ replace_from old new (Nat.pred (String.length old)) r
          else String c (replace_from old new O r)
      end
  end.

(** [s.replace(old, new)] *)
Definition replace (old new s : string) : string :=
  match old with
  | EmptyString => replace_empty new s
  | _ => replace_from old new O s
  end.

(** ["."] as a character *)
Definition dot : ascii := "."%char.

(** [s.split(".")] *)
Fixpoint split_dot (s : string) : list string :=
  match s with
  | EmptyString => [EmptyString]
  | String c r =>
      if Ascii.eqb c dot then EmptyString :: split_dot r
      else match split_dot r with
           | h :: t => String c h :: t
           | [] => [String c EmptyString]
           end
  end.

(** [".".join(atoms)] *)
Fixpoint join_dot (atoms : list string) : string :=
  match atoms with
  | [] => EmptyString
  | [a] => a
  | a :: rest => a ++ String dot (join_dot rest)
  end.

(** ["." in s] as a character test *)
Fixpoint has_dot (s : string) : bool :=
  match s with
  | EmptyString => false
  | String c r => Ascii.eqb c dot || has_dot r
  end.

End PyStr.

(** ** Tensor-name translator (lines 79-98) *)

Definition _name_replacements : list (string * string) :=
  [ ("blk", "layers");
    ("token_embd", "tok_embeddings");
    ("attn_q", "attention.wq");
    ("attn_k", "attention.wk");
    ("attn_v", "attention.wv");
    ("attn_output", "attention.wo");
    ("attn_norm", "attention_norm");
    ("output_norm.weight", "norm.weight");
    ("ffn_down", "feed_forward.w2");
    ("ffn_gate", "feed_forward.w1");
    ("ffn_up", "feed_forward.w3") ].

Definition _convert_gguf_tensor_name_to_llama_nn (gguf_name : string) : string :=
  fold_left
    (fun result '(gguf_string, replacement) =>
       PyStr.replace gguf_string replacement result)
    _name_replacements gguf_name.

(** The translator as the specification words it: the table of section 4.3,
    each row applied to the result of the previous one, every occurrence
    replaced. *)
Definition spec_translate (name : string) : string :=
  let s1 := PyStr.replace "blk" "layers" name in
  let s2 := PyStr.replace "token_embd" "tok_embeddings" s1 in
  let s3 := PyStr.replace "attn_q" "attention.wq" s2 in
  let s4 := PyStr.replace "attn_k" "attention.wk" s3 in
  let s5 := PyStr.replace "attn_v" "attention.wv" s4 in
  let s6 := PyStr.replace "attn_output" "attention.wo" s5 in
  let s7 := PyStr.replace "attn_norm" "attention_norm" s6 in
  let s8 := PyStr.replace "output_norm.weight" "norm.weight" s7 in
  let s9 := PyStr.replace "ffn_down" "feed_forward.w2" s8 in
  let s10 := PyStr.replace "ffn_gate" "feed_forward.w1" s9 in
  PyStr.replace "ffn_up" "feed_forward.w3" s10.

(** No source substring of the table occurs in [s]. *)
Definition collision_free (s : string) : bool :=
  forallb (fun '(gguf_string, _) => negb (PyStr.contains gguf_string s))
          _name_replacements.

(** ** Exceptions and effects *)

(** The three [assert] statements of the module. *)
Inductive assert_site :=
| assert_arch            (* line 195, _build_model_args *)
| assert_file_type       (* lines 199-201, _build_model_args *)
| assert_arch_again.     (* lines 243-245, convert_from_gguf *)

(** The statements that reshape an array. *)
Inductive reshape_site :=
| reshape_reversed       (* line 139, numpy: tensor.data.reshape(reversed_shape) *)
| reshape_rows_pass1     (* line 142, numpy: tensor.data.reshape(-1, 18) *)
| reshape_embedding      (* line 143, torch: unpacked.reshape(vocab_size, dim) *)
| reshape_rows_pass2.    (* line 160, torch: torch.from_numpy(tensor.data).reshape(-1, 18) *)

(** A raised Python exception, with the statement that raised it. *)
Inductive exn :=
| FileNotFound (gguf_file : string)   (* ValueError, line 226 *)
| ReaderError (gguf_file : string)    (* gguf.GGUFReader rejects the file, line 228 *)
| IndexError                          (* an index out of range *)
| UnicodeDecodeError                  (* str(bytes(...), encoding="utf-8") *)
| KeyError (key : string)             (* metadata[key] on an absent key *)
| AssertionError (site : assert_site)
| TypeError                           (* len() of a number; a non-integer dimension *)
| ReshapeError (site : reshape_site)  (* ValueError (numpy) / RuntimeError (torch) *)
| SizeMismatch                        (* RuntimeError of load_state_dict *)
| AttributeError (name : string)      (* getattr on a missing attribute *)
| NameError (name : string)           (* a name that nothing binds *)
| SyntaxError (line : Z).             (* a statement that is not Python *)

Inductive result (A : Type) :=
| Ok (a : A)
| Raise (e : exn).
Arguments Ok {A} a.
Arguments Raise {A} e.

Definition rbind {A B} (r : result A) (f : A -> result B) : result B :=
  match r with
  | Ok a => f a
  | Raise e => Raise e
  end.

Notation "'do' x <- c ; k" := (rbind c (fun x => k))
  (at level 10, x name, c at level 100, k at level 200).

Definition is_ok {A} (r : result A) : bool :=
  match r with Ok _ => true | Raise _ => false end.

(** [[f(x) for x in l]], stopping at the first exception *)
Fixpoint mapM {A B} (f : A -> result B) (l : list A) : result (list B) :=
  match l with
  | [] => Ok []
  | x :: r => do y <- f x; do ys <- mapM f r; Ok (y :: ys)
  end.

(** The error kinds of the specification (section 7). *)
Inductive error_kind := NotFound | InvalidInput | MissingData | OtherFailure.

(** The kind under which the specification reports each exception: the
    missing file is NotFound, a failed assertion or a reshape that does not
    fit is InvalidInput, an absent metadata key is MissingData. *)
Definition kind_of (e : exn) : error_kind :=
  match e with
  | FileNotFound _ => NotFound
  | AssertionError _ => InvalidInput
  | ReshapeError _ => InvalidInput
  | KeyError _ => MissingData
  | _ => OtherFailure
  end.

(** ** Python values of the metadata mapping *)

(** A number as [ndarray.tolist()] returns it. *)
Inductive scalar :=
| SInt (z : Z)
| SFloat (f : float)
| SBool (b : bool).

(** What [_get_metadata] stores under a key. *)
Inductive value :=
| VScalar (s : scalar)
| VStr (s : string)
| VStrList (l : list string)
| VList (l : list scalar).

(** [v == "..."]: only a str equals a str. *)
Definition py_eq_str (v : value) (s : string) : bool :=
  match v with
  | VStr a => String.eqb a s
  | _ => false
  end.

(** [x == 0] and [x == 1] on a number: an int by its value, a bool as 0 or
    1, a float by IEEE comparison with 0.0 or 1.0. *)
Definition scalar_eq_bit (x : scalar) (bit : bool) : bool :=
  match x with
  | SInt z => Z.eqb z (Z.b2z bit)
  | SBool b => Bool.eqb b bit
  | SFloat f => PrimFloat.eqb f (if bit then 1%float else 0%float)
  end.

(** [v == 0] / [v == 1]; a str or a list equals no number. *)
Definition py_eq_bit (v : value) (bit : bool) : bool :=
  match v with
  | VScalar x => scalar_eq_bit x bit
  | _ => false
  end.

(** The number a scalar denotes, for the exact types; a float denotes
    itself and is compared by [PrimFloat.eqb]. *)
Definition scalar_is (x : scalar) (n : Z) : Prop :=
  match x with
  | SInt z => z = n
  | SBool b => Z.b2z b = n
  | SFloat f => PrimFloat.eqb f (PrimFloat.of_uint63 (Uint63.of_Z n)) = true
  end.

(** A str is modelled by its UTF-8 bytes; [len] counts code points, that
    is, the bytes that are not continuation bytes. *)
Fixpoint py_len_str (s : string) : Z :=
  match s with
  | EmptyString => 0
  | String c r =>
      let b := N_of_ascii c in
      (if (128 <=? b)%N && (b <=? 191)%N then 0 else 1) + py_len_str r
  end.

(** [len(v)] *)
Definition py_len (v : value) : result Z :=
  match v with
  | VScalar _ => Raise TypeError
  | VStr s => Ok (py_len_str s)
  | VStrList l => Ok (Z.of_nat (List.length l))
  | VList l => Ok (Z.of_nat (List.length l))
  end.

(** [l[i]] with Python's negative indices *)
Definition py_index {A} (l : list A) (i : Z) : result A :=
  let n := Z.of_nat (List.length l) in
  let j := if i <? 0 then i + n else i in
  if (0 <=? j) && (j <? n)
  then match nth_error l (Z.to_nat j) with
       | Some x => Ok x
       | None => Raise IndexError
       end
  else Raise IndexError.

(** Strict UTF-8 well-formedness, as the decoder checks it: [pending]
    continuation bytes are due, the next one within [lo..hi]. *)
Fixpoint utf8_scan (pending : nat) (lo hi : N) (bs : list N) : bool :=
  match bs with
  | [] => Nat.eqb pending 0
  | b :: r =>
      match pending with
      | S k => (lo <=? b)%N && (b <=? hi)%N && utf8_scan k 128 191 r
      | O =>
          if (b <? 128)%N then utf8_scan 0 128 191 r
          else if (194 <=? b)%N && (b <=? 223)%N then utf8_scan 1 128 191 r
          else if (b =? 224)%N then utf8_scan 2 160 191 r
          else if (b =? 237)%N then utf8_scan 2 128 159 r
          else if (225 <=? b)%N && (b <=? 239)%N then utf8_scan 2 128 191 r
          else if (b =? 240)%N then utf8_scan 3 144 191 r
          else if (241 <=? b)%N && (b <=? 243)%N then utf8_scan 3 128 191 r
          else if (b =? 244)%N then utf8_scan 3 128 143 r
          else false
      end
  end.

(** [str(bytes(part), encoding="utf-8")] *)
Definition decode_utf8 (raw : string) : result string :=
  if utf8_scan 0 128 191 (map N_of_ascii (list_ascii_of_string raw))
  then Ok raw
  else Raise UnicodeDecodeError.

(** ** The GGUF reader (external library [gguf]) *)

Inductive GGUFValueType :=
| UINT8 | INT8 | UINT16 | INT16 | UINT32 | INT32 | FLOAT32 | BOOL
| STRING | ARRAY | UINT64 | INT64 | FLOAT64.

Definition GGUFValueType_eqb (a b : GGUFValueType) : bool :=
  match a, b with
  | UINT8, UINT8 | INT8, INT8 | UINT16, UINT16 | INT16, INT16
  | UINT32, UINT32 | INT32, INT32 | FLOAT32, FLOAT32 | BOOL, BOOL
  | STRING, STRING | ARRAY, ARRAY | UINT64, UINT64 | INT64, INT64
  | FLOAT64, FLOAT64 => true
  | _, _ => false
  end.

(** One part of a field, a numpy array: its elements and its raw bytes. *)
Record FieldPart := {
  tolist : list scalar;
  tobytes : string
}.

Record ReaderField := {
  field_name : string;
  parts : list FieldPart;
  data : list Z;
  types : list GGUFValueType
}.

(** [gguf.GGMLQuantizationType], the element encodings of a tensor: the
    three the converter names, and any other by its code.  The values are
    what [tensor.tensor_type] holds; the converter's module does not import
    the name of the enumeration (see the weight loader). *)
Inductive GGMLQuantizationType :=
| F32
| F16
| Q4_0
| other_quantization (code : Z).

(** A numpy array: its shape and its elements in row-major order. *)
Record ndarray := {
  np_shape : list Z;
  np_item : Z -> Z
}.

Record ReaderTensor := {
  name : string;
  tensor_type : GGMLQuantizationType;
  shape : list Z;
  tensor_data : ndarray
}.

Record GGUFReader := {
  fields : list ReaderField;
  tensors : list ReaderTensor
}.

(** ** The records of the module (lines 33-59) *)

Record AttentionArgs := {
  head_count : value;
  head_count_kv : value;
  layer_norm_rms_epsilon : value
}.

Record RopeArgs := {
  dimension_count : option value;
  freq_base : option value
}.

Record GGUFModelArgs := {
  arch : value;
  embedding_length : value;
  block_count : value;
  feed_forward_length : value;
  vocab_size : value;
  attention : AttentionArgs;
  rope : RopeArgs
}.

Record GGUFWeights := {
  weights_tensors : list ReaderTensor
}.

(** ** Metadata extractor (lines 170-190) *)

(** The value of one field; the four branches of the loop body. *)
Definition field_value (field : ReaderField) : result value :=
  match firstn 1 (types field) with
  | [ARRAY] =>
      do itype <- py_index (types field) (-1);
      if GGUFValueType_eqb itype STRING
      then
        do val <- mapM (fun idx => do part <- py_index (parts field) idx;
                                   decode_utf8 (tobytes part))
                       (data field);
        Ok (VStrList val)
      else
        do val <- mapM (fun idx => do part <- py_index (parts field) idx;
                                   Ok (tolist part))
                       (data field);
        Ok (VList (concat val))
  | _ =>
      do t0 <- py_index (types field) 0;
      if GGUFValueType_eqb t0 STRING
      then
        do part <- py_index (parts field) (-1);
        do val <- decode_utf8 (tobytes part);
        Ok (VStr val)
      else
        do part <- py_index (parts field) (-1);
        do val <- py_index (tolist part) 0;
        Ok (VScalar val)
  end.

Fixpoint get_metadata_loop (fs : list ReaderField) (metadata : gmap string value)
  : result (gmap string value) :=
  match fs with
  | [] => Ok metadata
  | field :: rest =>
      do val <- field_value field;
      get_metadata_loop rest (<[field_name field := val]> metadata)
  end.

Definition _get_metadata (reader : GGUFReader) : result (gmap string value) :=
  get_metadata_loop (fields reader) (empty : gmap string value).

(** ** Architecture mapper (lines 193-218) *)

(** [metadata[key]] *)
Definition getitem (metadata : gmap string value) (key : string) : result value :=
  match metadata !! key with
  | Some v => Ok v
  | None => Raise (KeyError key)
  end.

Definition _build_model_args (metadata : gmap string value) : result GGUFModelArgs :=
  do arch <- getitem metadata "general.architecture";
  if negb (py_eq_str arch "llama") then Raise (AssertionError assert_arch) else
  do gguf_ft <- getitem metadata "general.file_type";
  if negb (py_eq_bit gguf_ft false || py_eq_bit gguf_ft true)
  then Raise (AssertionError assert_file_type) else
  (* the f-strings: [arch] is the str "llama" here *)
  let prefix := match arch with VStr a => a | _ => EmptyString end in
  do embedding_length <- getitem metadata (prefix ++ ".embedding_length");
  do block_count <- getitem metadata (prefix ++ ".block_count");
  do feed_forward_length <- getitem metadata (prefix ++ ".feed_forward_length");
  do tokens <- getitem metadata "tokenizer.ggml.tokens";
  do vocab_size <- py_len tokens;
  do head_count <- getitem metadata (prefix ++ ".attention.head_count");
  do head_count_kv <- getitem metadata (prefix ++ ".attention.head_count_kv");
  do layer_norm_rms_epsilon <-
     getitem metadata (prefix ++ ".attention.layer_norm_rms_epsilon");
  Ok {| arch := arch;
        embedding_length := embedding_length;
        block_count := block_count;
        feed_forward_length := feed_forward_length;
        vocab_size := VScalar (SInt vocab_size);
        attention := {| head_count := head_count;
                        head_count_kv := head_count_kv;
                        layer_norm_rms_epsilon := layer_norm_rms_epsilon |};
        rope := {| freq_base := metadata !! (prefix ++ ".rope.freq_base");
                   dimension_count := metadata !! (prefix ++ ".rope.dimension_count") |} |}.

(** ** Arrays and tensors (external libraries [numpy] and [torch]) *)

Definition product (dims : list Z) : Z := fold_right Z.mul 1 dims.

Definition shape_eqb (a b : list Z) : bool :=
  if decide (a = b) then true else false.

Module np.

Definition size (a : ndarray) : Z := product (np_shape a).

(** [a.reshape(dims)] for non-negative [dims]: the same elements under a
    shape of the same size, ValueError otherwise. *)
Definition reshape (site : reshape_site) (a : ndarray) (dims : list Z) : result ndarray :=
  if forallb (Z.leb 0) dims && (product dims =? size a)
  then Ok {| np_shape := dims; np_item := np_item a |}
  else Raise (ReshapeError site).

(** [a.reshape(-1, k)] for [k > 0]: the row count is inferred; an empty
    array gives zero rows. *)
Definition reshape_rows (site : reshape_site) (a : ndarray) (k : Z) : result ndarray :=
  if size a mod k =? 0
  then Ok {| np_shape := [size a / k; k]; np_item := np_item a |}
  else Raise (ReshapeError site).

End np.

Module torch.

(** An element of a tensor.  Only what the converter distinguishes is kept:
    a stored number, the half-precision scalar packed in two bytes, a
    dequantized element (a signed 4-bit code times the scale packed in two
    bytes), and the value a freshly built parameter holds. *)
Inductive elem :=
| Num (z : Z)
| Half (b0 b1 : Z)
| Dequantized (b0 b1 : Z) (code : Z)
| Default.

(** A dense tensor: its shape and its elements in row-major order. *)
Record Tensor := {
  shape : list Z;
  item : Z -> elem
}.

Definition numel (t : Tensor) : Z := product (shape t).

Definition from_numpy (a : ndarray) : Tensor :=
  {| shape := np_shape a; item := fun i => Num (np_item a i) |}.

(** [t.reshape(dims)] for non-negative [dims], RuntimeError when the sizes
    differ. *)
Definition reshape (site : reshape_site) (t : Tensor) (dims : list Z) : result Tensor :=
  if forallb (Z.leb 0) dims && (product dims =? numel t)
  then Ok {| shape := dims; item := item t |}
  else Raise (ReshapeError site).

(** [t.reshape(-1, k)] for [k > 0]: the row count is inferred; a tensor
    without elements gives zero rows. *)
Definition reshape_rows (site : reshape_site) (t : Tensor) (k : Z) : result Tensor :=
  if numel t mod k =? 0
  then Ok {| shape := [numel t / k; k]; item := item t |}
  else Raise (ReshapeError site).

(** [t[:, :k]] of a tensor of shape [(n, w)] *)
Definition leading_columns (t : Tensor) (k : Z) : Tensor :=
  match shape t with
  | [n; w] => {| shape := [n; k]; item := fun i => item t (w * (i / k) + i mod k) |}
  | _ => t
  end.

End torch.

(** ** Quantization codec *)

(** The stored number of an element that is one. *)
Definition stored (e : torch.elem) : Z :=
  match e with
  | torch.Num z => z
  | _ => 0
  end.

(** Modelled from the spec: [to_float] is not defined in the module.  By
    section 4.6 (a) it takes rows of 18 bytes, a 2-byte packed scale then 16
    bytes of packed nibbles, and produces 32 elements per row, each the
    decoded signed 4-bit value times the row's scale.  Element [j] of a row
    is taken from the low ([j < 16]) or the high nibble of payload byte
    [j mod 16]; the specification leaves the order open and nothing proved
    below depends on it. *)
Definition to_float (rows : torch.Tensor) : torch.Tensor :=
  let n := torch.numel rows / 18 in
  {| torch.shape := [n; 32];
     torch.item := fun i =>
       let r := i / 32 in
       let j := i mod 32 in
       let byte := stored (torch.item rows (18 * r + 2 + j mod 16)) in
       let nibble := if j <? 16 then byte mod 16 else byte / 16 in
       torch.Dequantized (stored (torch.item rows (18 * r)))
                         (stored (torch.item rows (18 * r + 1)))
                         (nibble - 8) |}.

(** Modelled from the spec: [_unpack_two_uint8] is not defined in the
    module.  By section 4.6 (b) it takes a buffer of 2-byte columns, one
    per row, and reinterprets each as a half-precision scalar. *)
Definition _unpack_two_uint8 (x : torch.Tensor) : torch.Tensor :=
  {| torch.shape := firstn 1 (torch.shape x);
     torch.item := fun r => torch.Half (stored (torch.item x (2 * r)))
                                       (stored (torch.item x (2 * r + 1))) |}.

(** Modelled from the spec: [GGMLInt4LinearWeight] is not defined in the
    module.  By section 3 (Quantized Weight Wrapper) it carries the packed
    rows, the decoded per-block scale tensor and the logical shape it
    stands for. *)
Record GGMLInt4LinearWeight := {
  packed : torch.Tensor;
  scale : torch.Tensor;
  logical_shape : list Z
}.

(** ** Module trees ([torch.nn]) *)

Module nn.

(** [torch.nn.Parameter] (the full name is a keyword here).  The value of a
    parameter slot: a dense tensor, or the wrapper that line 163 of the
    weight loader builds for it. *)
Inductive Param :=
| Plain (t : torch.Tensor)
| Int4 (w : GGMLInt4LinearWeight).

(** [p.shape] *)
Definition shape (p : Param) : list Z :=
  match p with
  | Plain t => torch.shape t
  | Int4 w => logical_shape w
  end.

(** The class of a module, as far as [isinstance(_, torch.nn.Linear)] and
    the target model tell classes apart. *)
Inductive module_class :=
| Linear
| Embedding
| ModuleList
| other_class (class_name : string).

#[local] Set Warnings "-register-all".

(** A module object: its class, its mode, and its three attribute tables
    in registration order ([_buffers] lists the persistent buffers).  The
    object graph is a tree: no module or parameter object is registered
    under two names. *)
Inductive Module :=
| mk (cls : module_class) (training : bool)
     (_parameters : list (string * Param))
     (_buffers : list (string * torch.Tensor))
     (_modules : list (string * Module)).

#[local] Set Warnings "+register-all".

Definition cls (m : Module) : module_class :=
  match m with mk c _ _ _ _ => c end.
Definition training (m : Module) : bool :=
  match m with mk _ t _ _ _ => t end.
Definition _parameters (m : Module) : list (string * Param) :=
  match m with mk _ _ ps _ _ => ps end.
Definition _buffers (m : Module) : list (string * torch.Tensor) :=
  match m with mk _ _ _ bs _ => bs end.
Definition _modules (m : Module) : list (string * Module) :=
  match m with mk _ _ _ _ cs => cs end.

(** The first binding of [k] in an attribute table *)
Fixpoint assoc {A} (k : string) (l : list (string * A)) : option A :=
  match l with
  | [] => None
  | (k', v) :: r => if String.eqb k k' then Some v else assoc k r
  end.

(** [table[k] = v]: in place when [k] is bound, appended otherwise *)
Fixpoint upsert {A} (k : string) (v : A) (l : list (string * A)) : list (string * A) :=
  match l with
  | [] => [(k, v)]
  | (k', v') :: r => if String.eqb k k' then (k', v) :: r else (k', v') :: upsert k v r
  end.

(** [del table[k]] when bound *)
Definition remove {A} (k : string) (l : list (string * A)) : list (string * A) :=
  List.filter (fun kv => negb (String.eqb k (fst kv))) l.

(** What an attribute of a module can be. *)
Inductive attr :=
| attr_parameter (p : Param)
| attr_buffer (t : torch.Tensor)
| attr_module (m : Module).

(** [getattr(module, a)]: [Module.__getattr__] searches the parameters,
    the buffers, then the submodules. *)
Definition getattr_module (m : Module) (a : string) : result attr :=
  match assoc a (_parameters m) with
  | Some p => Ok (attr_parameter p)
  | None =>
      match assoc a (_buffers m) with
      | Some t => Ok (attr_buffer t)
      | None =>
          match assoc a (_modules m) with
          | Some c => Ok (attr_module c)
          | None => Raise (AttributeError a)
          end
      end
  end.

(** [getattr(curr, a)] on a module.  What the attributes of a tensor are
    is outside this model, which reports every one as missing; the
    converter looks up attributes of modules only. *)
Definition getattr (curr : attr) (a : string) : result attr :=
  match curr with
  | attr_module m => getattr_module m a
  | _ => Raise (AttributeError a)
  end.

(** [module.<a> = Parameter(...)]: [Module.__setattr__] drops [a] from the
    buffers and the submodules and registers the parameter. *)
Definition set_parameter (a : string) (p : Param) (m : Module) : Module :=
  match m with
  | mk c t ps bs cs => mk c t (upsert a p ps) (remove a bs) (remove a cs)
  end.

(** Replace the first submodule registered as [a]. *)
Fixpoint update_child (a : string) (f : Module -> Module)
         (cs : list (string * Module)) : list (string * Module) :=
  match cs with
  | [] => []
  | (a', c) :: r =>
      if String.eqb a a' then (a', f c) :: r else (a', c) :: update_child a f r
  end.

(** The tree after [f] mutates the module object reached from the root
    through the submodules [path]. *)
Fixpoint update_at (path : list string) (f : Module -> Module) (m : Module) : Module :=
  match path with
  | [] => f m
  | a :: rest =>
      match m with
      | mk c t ps bs cs => mk c t ps bs (update_child a (update_at rest f) cs)
      end
  end.

(** The name of a member under a prefix: [prefix + ('.' if prefix else '') + k] *)
Definition qualify (prefix k : string) : string :=
  match prefix with
  | EmptyString => k
  | _ => prefix ++ String PyStr.dot k
  end.

(** [module.named_parameters(prefix)]: the module's own parameters, then
    those of its submodules, in registration order. *)
Fixpoint named_parameters (prefix : string) (m : Module) : list (string * Param) :=
  match m with
  | mk _ _ ps _ cs =>
      map (fun kv => (qualify prefix (fst kv), snd kv)) ps
      ++ flat_map (fun nc => named_parameters (qualify prefix (fst nc)) (snd nc)) cs
  end.

(** [module.state_dict(prefix).items()]: parameters, persistent buffers,
    then the submodules' entries. *)
Fixpoint state_dict (prefix : string) (m : Module) : list (string * Param) :=
  match m with
  | mk _ _ ps bs cs =>
      map (fun kv => (qualify prefix (fst kv), snd kv)) ps
      ++ map (fun kv => (qualify prefix (fst kv), Plain (snd kv))) bs
      ++ flat_map (fun nc => state_dict (qualify prefix (fst nc)) (snd nc)) cs
  end.

(** The entry as [load_state_dict] takes it for a slot of shape
    [slot_shape]: a 1-dim entry offered to a 0-dim slot is replaced by its
    element 0 (IndexError when it has none); any other entry is taken as
    it is. *)
Definition incoming (slot_shape : list Z) (x : torch.Tensor) : result torch.Tensor :=
  match slot_shape, torch.shape x with
  | [], [n] =>
      if 0 <? n
      then Ok {| torch.shape := []; torch.item := fun _ => torch.item x 0 |}
      else Raise IndexError
  | _, _ => Ok x
  end.

(** What a slot holding [old] holds after the copy of the entry [x]. *)
Definition copied (old : list Z) (x : torch.Tensor) : torch.Tensor :=
  match incoming old x with
  | Ok y => y
  | Raise _ => x
  end.

(** The copy that [load_state_dict] makes into every slot that has an
    entry in [sd]. *)
Fixpoint assign (prefix : string) (sd : gmap string torch.Tensor) (m : Module) : Module :=
  match m with
  | mk c t ps bs cs =>
      mk c t
         (map (fun kv => (fst kv, match sd !! qualify prefix (fst kv) with
                                  | Some x => Plain (copied (shape (snd kv)) x)
                                  | None => snd kv
                                  end)) ps)
         (map (fun kv => (fst kv, match sd !! qualify prefix (fst kv) with
                                  | Some x => copied (torch.shape (snd kv)) x
                                  | None => snd kv
                                  end)) bs)
         (map (fun nc => (fst nc, assign (qualify prefix (fst nc)) sd (snd nc))) cs)
  end.

(** The entry of [sd] for a slot can be taken. *)
Definition takes (sd : gmap string torch.Tensor) (slot : string * Param) : result unit :=
  match sd !! fst slot with
  | Some x => do _ <- incoming (shape (snd slot)) x; Ok tt
  | None => Ok tt
  end.

(** An entry of [sd] fits the slot it names when the shapes agree. *)
Definition fits (sd : gmap string torch.Tensor) (slot : string * Param) : bool :=
  match sd !! fst slot with
  | Some x => shape_eqb (torch.shape (copied (shape (snd slot)) x)) (shape (snd slot))
  | None => true
  end.

(** [module.load_state_dict(sd, strict=False)]: every slot named in [sd]
    receives the entry; keys on either side without a partner are ignored;
    a shape mismatch raises RuntimeError once all slots were visited. *)
Definition load_state_dict (m : Module) (sd : gmap string torch.Tensor) : result Module :=
  do _ <- mapM (takes sd) (state_dict EmptyString m);
  if forallb (fits sd) (state_dict EmptyString m)
  then Ok (assign EmptyString sd m)
  else Raise SizeMismatch.

(** [module.eval()] *)
Fixpoint eval (m : Module) : Module :=
  match m with
  | mk c _ ps bs cs => mk c false ps bs (map (fun nc => (fst nc, eval (snd nc))) cs)
  end.

(** Attribute names as torch accepts them: not empty, without a dot. *)
Definition atom_ok (a : string) : bool :=
  negb (String.eqb a EmptyString) && negb (PyStr.has_dot a).

Fixpoint distinct (l : list string) : bool :=
  match l with
  | [] => true
  | a :: r => negb (existsb (String.eqb a) r) && distinct r
  end.

(** The invariant torch maintains on every module: the names of its
    parameters, buffers and submodules are acceptable and pairwise
    different. *)
Fixpoint wf (m : Module) : bool :=
  match m with
  | mk _ _ ps bs cs =>
      let names := (map fst ps ++ map fst bs ++ map fst cs)%list in
      forallb atom_ok names && distinct names
      && forallb (fun nc => wf (snd nc)) cs
  end.

End nn.

(** ** The target model (module [model]) *)

Module model.

(** Modelled from the spec: [ModelArgs] is imported from [model], which is
    not part of the sources.  The fields are those the instantiator sets
    (section 4.4); the dimensions are integers, the epsilon is kept as the
    metadata gave it. *)
Record ModelArgs := {
  dim : Z;
  n_layer : Z;
  n_head : Z;
  n_local_heads : Z;
  vocab_size : Z;
  norm_eps : value;
  intermediate_size : Z
}.

(** A model instance: the root module and the configuration it keeps as
    [params]. *)
Record Transformer := {
  params : ModelArgs;
  root : nn.Module
}.

Definition fresh (dims : list Z) : nn.Param :=
  nn.Plain {| torch.shape := dims; torch.item := fun _ => torch.Default |}.

Definition new_Linear (in_features out_features : Z) : nn.Module :=
  nn.mk nn.Linear true [("weight", fresh [out_features; in_features])] [] [].

Definition new_Embedding (num_embeddings embedding_dim : Z) : nn.Module :=
  nn.mk nn.Embedding true [("weight", fresh [num_embeddings; embedding_dim])] [] [].

Definition new_RMSNorm (d : Z) : nn.Module :=
  nn.mk (nn.other_class "RMSNorm") true [("weight", fresh [d])] [] [].

Definition new_Attention (config : ModelArgs) : nn.Module :=
  let head_dim := dim config / n_head config in
  nn.mk (nn.other_class "Attention") true [] []
        [ ("wq", new_Linear (dim config) (n_head config * head_dim));
          ("wk", new_Linear (dim config) (n_local_heads config * head_dim));
          ("wv", new_Linear (dim config) (n_local_heads config * head_dim));
          ("wo", new_Linear (dim config) (dim config)) ].

Definition new_FeedForward (config : ModelArgs) : nn.Module :=
  nn.mk (nn.other_class "FeedForward") true [] []
        [ ("w1", new_Linear (dim config) (intermediate_size config));
          ("w2", new_Linear (intermediate_size config) (dim config));
          ("w3", new_Linear (dim config) (intermediate_size config)) ].

Definition new_TransformerBlock (config : ModelArgs) : nn.Module :=
  nn.mk (nn.other_class "TransformerBlock") true [] []
        [ ("attention", new_Attention config);
          ("feed_forward", new_FeedForward config);
          ("ffn_norm", new_RMSNorm (dim config));
          ("attention_norm", new_RMSNorm (dim config)) ].

(** The decimal name of the [i]-th entry of a [ModuleList] *)
Definition index_name (i : nat) : string :=
  NilEmpty.string_of_uint (Nat.to_uint i).

Definition new_ModuleList (items : list nn.Module) : nn.Module :=
  nn.mk nn.ModuleList true [] []
        (combine (map index_name (seq 0 (List.length items))) items).

(** Modelled from the spec: the constructor of [Transformer] is imported
    from [model], which is not part of the sources.  By section 3 (Target
    Model Instance) the object graph has an embedding table, [n_layer]
    transformer blocks, each with attention and feed-forward sublayers
    that own their weights, a final normalization and an output head; the
    attribute names are those the tensor-name translator produces.  The
    layer shapes are the ones of the llama architecture; of these the
    proofs use the embedding table's only. *)
Definition new_Transformer (config : ModelArgs) : Transformer :=
  {| params := config;
     root :=
       nn.mk (nn.other_class "Transformer") true [] []
             [ ("tok_embeddings", new_Embedding (vocab_size config) (dim config));
               ("layers", new_ModuleList
                            (repeat (new_TransformerBlock config)
                                    (Z.to_nat (n_layer config))));
               ("norm", new_RMSNorm (dim config));
               ("output", new_Linear (dim config) (vocab_size config)) ] |}.

(** The transformer blocks a model exposes: the entries of [layers]. *)
Definition blocks (pt_model : Transformer) : list (string * nn.Module) :=
  match nn.assoc "layers" (nn._modules (root pt_model)) with
  | Some layers => nn._modules layers
  | None => []
  end.

End model.

(** ** Observable effects *)

Inductive event :=
| open_reader (gguf_file : string)
    (* line 228: gguf.GGUFReader(gguf_file, "r") *)
| instantiate (llama_model_args : model.ModelArgs)
    (* line 74: Transformer(llama_model_args) *)
| print (fqn : string) (tensor_shape data_shape weight_shape : list Z).
    (* line 159 *)

(** A computation that raises or returns, after the events it caused. *)
Definition IO (A : Type) : Type := list event * result A.

Definition ret {A} (a : A) : IO A := ([], Ok a).
Definition lift {A} (r : result A) : IO A := ([], r).
Definition emit (ev : event) : IO unit := ([ev], Ok tt).

Definition iobind {A B} (c : IO A) (f : A -> IO B) : IO B :=
  match c with
  | (out, Ok a) => let '(out', r) := f a in ((out ++ out')%list, r)
  | (out, Raise e) => (out, Raise e)
  end.

Notation "'io' x <- c ; k" := (iobind c (fun x => k))
  (at level 10, x name, c at level 100, k at level 200).

(** ** Model instantiator (lines 62-76) *)

(** The integer a dimension of the configuration must be.  Python checks
    no field type when the record is built; the constructor of the model
    fails with TypeError at the first use of a dimension that is not an
    integer.  The embedding raises that TypeError when the record is
    built, so a configuration record holds integers only. *)
Definition as_int (v : value) : result Z :=
  match v with
  | VScalar (SInt z) => Ok z
  | VScalar (SBool b) => Ok (Z.b2z b)
  | _ => Raise TypeError
  end.

(** Lines 65-73: the configuration record of the target model. *)
Definition llama_model_args (gguf_model_args : GGUFModelArgs) : result model.ModelArgs :=
  do dim <- as_int (embedding_length gguf_model_args);
  do n_layer <- as_int (block_count gguf_model_args);
  do n_head <- as_int (head_count (attention gguf_model_args));
  do n_local_heads <- as_int (head_count_kv (attention gguf_model_args));
  do vocab_size <- as_int (vocab_size gguf_model_args);
  do intermediate_size <- as_int (feed_forward_length gguf_model_args);
  Ok {| model.dim := dim;
        model.n_layer := n_layer;
        model.n_head := n_head;
        model.n_local_heads := n_local_heads;
        model.vocab_size := vocab_size;
        model.norm_eps := layer_norm_rms_epsilon (attention gguf_model_args);
        model.intermediate_size := intermediate_size |}.

Definition _create_pt_model (gguf_model_args : GGUFModelArgs) : IO model.Transformer :=
  io llama_model_args <- lift (llama_model_args gguf_model_args);
  io _ <- emit (instantiate llama_model_args);
  let pt_model := model.new_Transformer llama_model_args in
  ret {| model.params := model.params pt_model;
         model.root := nn.eval (model.root pt_model) |}.

(** ** Paths of attributes (lines 101-126) *)

Fixpoint getattr_each (atoms : list string) (curr : nn.attr) : result nn.attr :=
  match atoms with
  | [] => Ok curr
  | a :: rest => do next <- nn.getattr curr a; getattr_each rest next
  end.

Definition _fqn_lookup (fqn : string) (module : nn.Module) : result nn.attr :=
  if String.eqb fqn "" then Ok (nn.attr_module module)
  else getattr_each (PyStr.split_dot fqn) (nn.attr_module module).

Definition _fqn_down (fqn name : string) : string :=
  if String.eqb fqn "" then name
  else fqn ++ "." ++ name.

Definition _fqn_up (fqn : string) : string :=
  let atoms := PyStr.split_dot fqn in
  if Nat.eqb (List.length atoms) 1 then ""
  else PyStr.join_dot (removelast atoms).

Definition _fqn_last (fqn : string) : string :=
  List.last (PyStr.split_dot fqn) "".

(** The submodule names that [_fqn_lookup] follows for [fqn]. *)
Definition fqn_atoms (fqn : string) : list string :=
  if String.eqb fqn "" then [] else PyStr.split_dot fqn.

(** ** The names of the module

    A name that a function body uses and does not assign is looked up
    among the module's globals, then among the built-ins, when the
    statement that holds it runs.  The globals are what the import
    statements of lines 8-28 and the definitions of the module bind. *)

Definition module_globals : list string :=
  [ "argparse"; "copy"; "sys"; "dataclass"; "Path"; "Any"; "Mapping"; "logging";
    "gguf"; "torch"; "nn"; "GGUFValueType"; "ReaderTensor"; "wd";
    "ModelArgs"; "Transformer"; "Set"; "logger";
    "AttentionArgs"; "RopeArgs"; "GGUFModelArgs"; "GGUFWeights";
    "_create_pt_model"; "_name_replacements";
    "_convert_gguf_tensor_name_to_llama_nn";
    "_fqn_lookup"; "_fqn_down"; "_fqn_up"; "_fqn_last"; "_load_weights";
    "_get_metadata"; "_build_model_args"; "load_gguf_file"; "convert_from_gguf" ].

(** The built-ins that the module uses. *)
Definition builtins : list string :=
  [ "print"; "str"; "bytes"; "len"; "isinstance"; "enumerate"; "dict"; "list";
    "int"; "float"; "ValueError" ].

(** Evaluating the name [x] in a function of the module. *)
Definition global_name (x : string) : result unit :=
  if existsb (String.eqb x) module_globals || existsb (String.eqb x) builtins
  then Ok tt
  else Raise (NameError x).
Arguments global_name : simpl never.

(** ** Weight loader (lines 129-164)

    The function as written is not Python: line 132 reads
    [for fqn, _ model.state_dict():], so the module that holds it does not
    compile and the function has no run at all.  Section 9 of the
    specification reads the line as the loop over the entries of the
    model's state keyed by fully-qualified name, the loop that the
    parameter pass at line 151 mirrors:
    [for fqn, _ in pt_model.state_dict().items():].  Both are embedded;
    a [loop_header] says which one is meant.

    Under the second header the body runs, and the names it uses are looked
    up in the module: [GGMLQuantizationType] (lines 137, 141 and 156),
    [to_float] (142), [_unpack_two_uint8] (161) and [GGMLInt4LinearWeight]
    (163) are bound neither by an import nor by a definition, so the
    statement that evaluates one raises NameError.  The statements after
    such a lookup are embedded all the same, the codec as the specification
    describes it.  The annotation [Dict] of line 129 is unbound as well; it
    is evaluated when the [def] statement runs, not with the body, and is
    not part of the embedding of the body. *)

Inductive loop_header :=
| as_written          (* for fqn, _ model.state_dict(): *)
| as_reconstructed.   (* for fqn, _ in pt_model.state_dict().items(): *)

Definition is_float (t : GGMLQuantizationType) : bool :=
  match t with
  | F32 | F16 => true
  | _ => false
  end.

Definition is_Q4_0 (t : GGMLQuantizationType) : bool :=
  match t with
  | Q4_0 => true
  | _ => false
  end.

(** Lines 137-145: what the state_dict pass stores for a matched tensor.
    The test of line 137 builds the tuple
    [(GGMLQuantizationType.F32, GGMLQuantizationType.F16)] first; the call
    of line 142 evaluates the name [to_float] before its argument. *)
Definition state_dict_entry (params : model.ModelArgs) (tensor : ReaderTensor)
  : result (option torch.Tensor) :=
  do _ <- global_name "GGMLQuantizationType";
  if is_float (tensor_type tensor) then
    let reversed_shape := rev (shape tensor) in
    do new_tensor <- np.reshape reshape_reversed (tensor_data tensor) reversed_shape;
    Ok (Some (torch.from_numpy new_tensor))
  else
    do _ <- global_name "GGMLQuantizationType";
    if is_Q4_0 (tensor_type tensor) && String.eqb (name tensor) "token_embd.weight" then
      do _ <- global_name "to_float";
      do rows <- np.reshape_rows reshape_rows_pass1 (tensor_data tensor) 18;
      let unpacked := to_float (torch.from_numpy rows) in
      do reshaped <- torch.reshape reshape_embedding unpacked
                                   [model.vocab_size params; model.dim params];
      Ok (Some reshaped)
    else Ok None.
Arguments state_dict_entry : simpl never.

(** Lines 132-145 under the reconstructed header: the loop that fills
    [state_dict], over the names of the model's state. *)
Fixpoint state_dict_loop (params : model.ModelArgs)
         (weight_map : gmap string ReaderTensor) (fqns : list string)
         (state_dict : gmap string torch.Tensor) : result (gmap string torch.Tensor) :=
  match fqns with
  | [] => Ok state_dict
  | fqn :: rest =>
      match weight_map !! fqn with
      | None => state_dict_loop params weight_map rest state_dict
      | Some tensor =>
          do entry <- state_dict_entry params tensor;
          state_dict_loop params weight_map rest
            match entry with
            | Some x => <[fqn := x]> state_dict
            | None => state_dict
            end
      end
  end.

(** Lines 131-148 under the reconstructed header: the state_dict pass
    (pass 1). *)
Definition state_dict_pass (pt_model : model.Transformer)
           (weight_map : gmap string ReaderTensor) : result model.Transformer :=
  do state_dict <-
     state_dict_loop (model.params pt_model) weight_map
                     (map fst (nn.state_dict "" (model.root pt_model)))
                     (empty : gmap string torch.Tensor);
  do loaded <- nn.load_state_dict (model.root pt_model) state_dict;
  Ok {| model.params := model.params pt_model; model.root := loaded |}.

(** [isinstance(parent, torch.nn.Linear)] *)
Definition isinstance_Linear (parent : nn.attr) : bool :=
  match parent with
  | nn.attr_module m =>
      match nn.cls m with
      | nn.Linear => true
      | _ => false
      end
  | _ => false
  end.

(** [x.shape] of an attribute value *)
Definition attr_shape (x : nn.attr) : result (list Z) :=
  match x with
  | nn.attr_parameter p => Ok (nn.shape p)
  | nn.attr_buffer t => Ok (torch.shape t)
  | nn.attr_module _ => Raise (AttributeError "shape")
  end.

(** Lines 152-164: the body of the parameter loop for one [fqn].  The
    comparison of line 156 evaluates [GGMLQuantizationType.Q4_0]; the calls
    of lines 161 and 163 evaluate the names [_unpack_two_uint8] and
    [GGMLInt4LinearWeight] before their arguments. *)
Definition parameter_step (weight_map : gmap string ReaderTensor) (fqn : string)
           (pt_model : nn.Module) : IO nn.Module :=
  match weight_map !! fqn with
  | None => ret pt_model
  | Some tensor =>
      io _ <- lift (global_name "GGMLQuantizationType");
      if is_Q4_0 (tensor_type tensor) then
        io parent <- lift (_fqn_lookup (_fqn_up fqn) pt_model);
        if isinstance_Linear parent && String.eqb (_fqn_last fqn) "weight" then
          io weight <- lift (nn.getattr parent "weight");
          io weight_shape <- lift (attr_shape weight);
          io _ <- emit (print fqn (shape tensor) (np_shape (tensor_data tensor))
                              weight_shape);
          io packed <- lift (torch.reshape_rows reshape_rows_pass2
                               (torch.from_numpy (tensor_data tensor)) 18);
          io _ <- lift (global_name "_unpack_two_uint8");
          let scale := _unpack_two_uint8 (torch.leading_columns packed 2) in
          io _ <- lift (global_name "GGMLInt4LinearWeight");
          ret (nn.update_at (fqn_atoms (_fqn_up fqn))
                 (nn.set_parameter "weight"
                    (nn.Int4 {| packed := packed;
                                scale := scale;
                                logical_shape := weight_shape |}))
                 pt_model)
        else ret pt_model
      else ret pt_model
  end.

(** Lines 151-164: the parameter pass (pass 2) over the names that
    [named_parameters] yields. *)
Fixpoint parameter_loop (weight_map : gmap string ReaderTensor) (fqns : list string)
         (pt_model : nn.Module) : IO nn.Module :=
  match fqns with
  | [] => ret pt_model
  | fqn :: rest =>
      io next <- parameter_step weight_map fqn pt_model;
      parameter_loop weight_map rest next
  end.

Definition parameter_pass (pt_model : model.Transformer)
           (weight_map : gmap string ReaderTensor) : IO model.Transformer :=
  io quantized <-
     parameter_loop weight_map
                    (map fst (nn.named_parameters "" (model.root pt_model)))
                    (model.root pt_model);
  ret {| model.params := model.params pt_model; model.root := quantized |}.

(** The model object after a call of the function under a header; the
    function itself returns [None].  As written there is no call to run:
    the failure is the SyntaxError of line 132. *)
Definition _load_weights_under (header : loop_header) (pt_model : model.Transformer)
           (weight_map : gmap string ReaderTensor) : IO model.Transformer :=
  match header with
  | as_written => lift (Raise (SyntaxError 132))
  | as_reconstructed =>
      io loaded <- lift (state_dict_pass pt_model weight_map);
      parameter_pass loaded weight_map
  end.

(** The function of the source. *)
Definition _load_weights : model.Transformer -> gmap string ReaderTensor
                           -> IO model.Transformer :=
  _load_weights_under as_written.

(** ** Conversion driver (lines 221-257) *)

(** What a path refers to. *)
Inductive fs_node :=
| regular_file (content : option GGUFReader)
    (* a file; [Some] when it is a GGUF container the reader accepts *)
| directory.

Definition FileSystem := string -> option fs_node.

(** [Path(gguf_file).is_file()] *)
Definition is_file (fs : FileSystem) (gguf_file : string) : bool :=
  match fs gguf_file with
  | Some (regular_file _) => true
  | _ => false
  end.

(** [gguf.GGUFReader(gguf_file, "r")] *)
Definition open_GGUFReader (fs : FileSystem) (gguf_file : string) : IO GGUFReader :=
  io _ <- emit (open_reader gguf_file);
  match fs gguf_file with
  | Some (regular_file (Some reader)) => ret reader
  | _ => lift (Raise (ReaderError gguf_file))
  end.

Definition load_gguf_file (fs : FileSystem) (gguf_file : string)
  : IO (GGUFModelArgs * GGUFWeights) :=
  if negb (is_file fs gguf_file) then lift (Raise (FileNotFound gguf_file)) else
  io reader <- open_GGUFReader fs gguf_file;
  io metadata <- lift (_get_metadata reader);
  io model_args <- lift (_build_model_args metadata);
  let gguf_weights := {| weights_tensors := tensors reader |} in
  ret (model_args, gguf_weights).

(** Lines 251-254: the name map; a later tensor replaces an earlier one
    with the same translated name. *)
Definition build_weight_map (gguf_weights : GGUFWeights) : gmap string ReaderTensor :=
  fold_left
    (fun weight_map tensor =>
       <[_convert_gguf_tensor_name_to_llama_nn (name tensor) := tensor]> weight_map)
    (weights_tensors gguf_weights) (empty : gmap string ReaderTensor).

(** The driver, calling the weight loader under a header. *)
Definition convert_from_gguf_under (header : loop_header) (fs : FileSystem)
           (gguf_file : string) : IO model.Transformer :=
  io loaded <- load_gguf_file fs gguf_file;
  let gguf_model_args := fst loaded in
  let gguf_weights := snd loaded in
  if negb (py_eq_str (arch gguf_model_args) "llama")
  then lift (Raise (AssertionError assert_arch_again)) else
  io pt_model <- _create_pt_model gguf_model_args;
  let weight_map := build_weight_map gguf_weights in
  _load_weights_under header pt_model weight_map.

(** The function of the source. *)
Definition convert_from_gguf : FileSystem -> string -> IO model.Transformer :=
  convert_from_gguf_under as_written.

(** ** Well-formed metadata of the supported family *)

(** The entries a "llama" file declares (section 6), with the types the
    container gives them. *)
Record llama_metadata := {
  md_file_type : Z;
  md_tokens : list string;
  md_embedding_length : Z;
  md_block_count : Z;
  md_feed_forward_length : Z;
  md_head_count : Z;
  md_head_count_kv : Z;
  md_layer_norm_rms_epsilon : float
}.

(** [metadata] declares the entries [w] for the architecture "llama". *)
Definition declares (metadata : gmap string value) (w : llama_metadata) : Prop :=
  metadata !! "general.architecture" = Some (VStr "llama")
  /\ metadata !! "general.file_type" = Some (VScalar (SInt (md_file_type w)))
  /\ metadata !! "tokenizer.ggml.tokens" = Some (VStrList (md_tokens w))
  /\ metadata !! "llama.embedding_length"
     = Some (VScalar (SInt (md_embedding_length w)))
  /\ metadata !! "llama.block_count" = Some (VScalar (SInt (md_block_count w)))
  /\ metadata !! "llama.feed_forward_length"
     = Some (VScalar (SInt (md_feed_forward_length w)))
  /\ metadata !! "llama.attention.head_count"
     = Some (VScalar (SInt (md_head_count w)))
  /\ metadata !! "llama.attention.head_count_kv"
     = Some (VScalar (SInt (md_head_count_kv w)))
  /\ metadata !! "llama.attention.layer_norm_rms_epsilon"
     = Some (VScalar (SFloat (md_layer_norm_rms_epsilon w))).

(** The metadata mapping with exactly the entries [w]. *)
Definition metadata_of (w : llama_metadata) : gmap string value :=
  <["general.architecture" := VStr "llama"]>
  (<["general.file_type" := VScalar (SInt (md_file_type w))]>
  (<["tokenizer.ggml.tokens" := VStrList (md_tokens w)]>
  (<["llama.embedding_length" := VScalar (SInt (md_embedding_length w))]>
  (<["llama.block_count" := VScalar (SInt (md_block_count w))]>
  (<["llama.feed_forward_length" := VScalar (SInt (md_feed_forward_length w))]>
  (<["llama.attention.head_count" := VScalar (SInt (md_head_count w))]>
  (<["llama.attention.head_count_kv" := VScalar (SInt (md_head_count_kv w))]>
  (<["llama.attention.layer_norm_rms_epsilon"
     := VScalar (SFloat (md_layer_norm_rms_epsilon w))]>
  (empty : gmap string value))))))))).

(** The example of section 8, property 4. *)
Definition example_metadata : llama_metadata :=
  {| md_file_type := 0;
     md_tokens := repeat "tok" (Z.to_nat 32000);
     md_embedding_length := 4096;
     md_block_count := 2;
     md_feed_forward_length := 11008;
     md_head_count := 32;
     md_head_count_kv := 32;
     md_layer_norm_rms_epsilon := 0x1.4f8b588e368f1p-17%float |}.

(** [gguf_model_args] with its rope fields replaced. *)
Definition with_rope (gguf_model_args : GGUFModelArgs) (r : RopeArgs) : GGUFModelArgs :=
  {| arch := arch gguf_model_args;
     embedding_length := embedding_length gguf_model_args;
     block_count := block_count gguf_model_args;
     feed_forward_length := feed_forward_length gguf_model_args;
     vocab_size := vocab_size gguf_model_args;
     attention := attention gguf_model_args;
     rope := r |}.

(** ** A small container, for running the converter *)

Definition bytes_part (s : string) : FieldPart :=
  {| tolist := map (fun c => SInt (Z.of_N (N_of_ascii c))) (list_ascii_of_string s);
     tobytes := s |}.

Definition number_part (x : scalar) : FieldPart :=
  {| tolist := [x]; tobytes := EmptyString |}.

(** A field as the reader lays it out: key length, key, type code, then
    the value parts; [data] indexes the value. *)
Definition string_field (key s : string) : ReaderField :=
  {| field_name := key;
     parts := [ number_part (SInt (py_len_str key)); bytes_part key;
                number_part (SInt 8);
                number_part (SInt (Z.of_nat (String.length s))); bytes_part s ];
     data := [4];
     types := [STRING] |}.

Definition number_field (key : string) (t : GGUFValueType) (x : scalar) : ReaderField :=
  {| field_name := key;
     parts := [ number_part (SInt (py_len_str key)); bytes_part key;
                number_part (SInt 4); number_part x ];
     data := [3];
     types := [t] |}.

Definition strings_field (key : string) (l : list string) : ReaderField :=
  {| field_name := key;
     parts := [ number_part (SInt (py_len_str key)); bytes_part key;
                number_part (SInt 9); number_part (SInt 8);
                number_part (SInt (Z.of_nat (List.length l))) ]
              ++ flat_map (fun s => [ number_part (SInt (Z.of_nat (String.length s)));
                                      bytes_part s ]) l;
     data := map (fun i => 6 + 2 * Z.of_nat i) (seq 0 (List.length l));
     types := [ARRAY; STRING] |}.

(** The metadata fields of a one-block model of dimension 32 with three
    tokens, with the given architecture and file type. *)
Definition small_fields (architecture : string) (file_type : Z) : list ReaderField :=
  [ string_field "general.architecture" architecture;
    number_field "general.file_type" UINT32 (SInt file_type);
    strings_field "tokenizer.ggml.tokens" ["<s>"; "a"; "b"];
    number_field "llama.embedding_length" UINT32 (SInt 32);
    number_field "llama.block_count" UINT32 (SInt 1);
    number_field "llama.feed_forward_length" UINT32 (SInt 64);
    number_field "llama.attention.head_count" UINT32 (SInt 1);
    number_field "llama.attention.head_count_kv" UINT32 (SInt 1);
    number_field "llama.attention.layer_norm_rms_epsilon" FLOAT32
                 (SFloat 0x1.4f8b588e368f1p-17%float);
    number_field "llama.rope.dimension_count" UINT32 (SInt 32) ].

(** A float32 embedding table and a 4-bit query projection. *)
Definition small_tensors : list ReaderTensor :=
  [ {| name := "token_embd.weight"; tensor_type := F32; shape := [32; 3];
       tensor_data := {| np_shape := [96]; np_item := fun i => i |} |};
    {| name := "blk.0.attn_q.weight"; tensor_type := Q4_0; shape := [32; 32];
       tensor_data := {| np_shape := [576]; np_item := fun i => i mod 256 |} |};
    {| name := "rope_freqs.weight"; tensor_type := F32; shape := [16];
       tensor_data := {| np_shape := [16]; np_item := fun i => i |} |} ].

Definition small_reader (architecture : string) (file_type : Z) : GGUFReader :=
  {| fields := small_fields architecture file_type; tensors := small_tensors |}.

(** A file system with one container, one file that is none, and a
    directory. *)
Definition small_fs (architecture : string) (file_type : Z) : FileSystem :=
  fun path =>
    if String.eqb path "model.gguf"
    then Some (regular_file (Some (small_reader architecture file_type)))
    else if String.eqb path "notes.txt" then Some (regular_file None)
    else if String.eqb path "models" then Some directory
    else None.

(** ** Predicates of the statements *)

Definition is_assertion (e : exn) : bool :=
  match e with
  | AssertionError _ => true
  | _ => false
  end.

(** No [Transformer] was built during the events [out]. *)
Definition nothing_instantiated (out : list event) : bool :=
  forallb (fun ev => match ev with instantiate _ => false | _ => true end) out.

(** Two metadata mappings that agree on every key but the two rope keys. *)
Definition same_but_rope (metadata1 metadata2 : gmap string value) : Prop :=
  forall key,
    key <> "llama.rope.freq_base" ->
    key <> "llama.rope.dimension_count" ->
    metadata1 !! key = metadata2 !! key.

(** The model that the driver builds from a metadata mapping (lines 232
    and 248). *)
Definition instantiate_from (metadata : gmap string value) : IO model.Transformer :=
  io gguf_model_args <- lift (_build_model_args metadata);
  _create_pt_model gguf_model_args.

(** ** Instantiated models and tensors *)

(** The model that [_create_pt_model] returns for the configuration
    [config]. *)
Definition instantiated (config : model.ModelArgs) : model.Transformer :=
  {| model.params := config;
     model.root := nn.eval (model.root (model.new_Transformer config)) |}.

(** The configuration of the example of section 8, property 4. *)
Definition example_config : model.ModelArgs :=
  {| model.dim := 4096;
     model.n_layer := 2;
     model.n_head := 32;
     model.n_local_heads := 32;
     model.vocab_size := 32000;
     model.norm_eps := VScalar (SFloat 0x1.4f8b588e368f1p-17%float);
     model.intermediate_size := 11008 |}.

(** The configuration of the small container. *)
Definition small_config : model.ModelArgs :=
  {| model.dim := 32;
     model.n_layer := 1;
     model.n_head := 1;
     model.n_local_heads := 1;
     model.vocab_size := 3;
     model.norm_eps := VScalar (SFloat 0x1.4f8b588e368f1p-17%float);
     model.intermediate_size := 64 |}.

(** A float32 embedding table of the example's size. *)
Definition example_embedding : ReaderTensor :=
  {| name := "token_embd.weight"; tensor_type := F32; shape := [4096; 32000];
     tensor_data := {| np_shape := [131072000]; np_item := fun i => i mod 7 |} |}.

(** A 4-bit embedding table of three rows for the small model. *)
Definition small_q4_embedding : ReaderTensor :=
  {| name := "token_embd.weight"; tensor_type := Q4_0; shape := [32; 3];
     tensor_data := {| np_shape := [54]; np_item := fun i => i mod 256 |} |}.

(** ** Parameters by position *)

(** A parameter slot of a module tree: the submodule names that lead to
    the module owning it, its name there, the class of that module, and
    its value. *)
Record site := {
  site_path : list string;
  site_leaf : string;
  site_cls : nn.module_class;
  site_value : nn.Param
}.

Definition site_under (a : string) (s : site) : site :=
  {| site_path := a :: site_path s;
     site_leaf := site_leaf s;
     site_cls := site_cls s;
     site_value := site_value s |}.

(** The parameter slots in the order of [named_parameters]. *)
Fixpoint sites (m : nn.Module) : list site :=
  match m with
  | nn.mk c _ ps _ cs =>
      map (fun kv => {| site_path := []; site_leaf := fst kv;
                        site_cls := c; site_value := snd kv |}) ps
      ++ flat_map (fun nc => map (site_under (fst nc)) (sites (snd nc))) cs
  end.

Definition site_fqn (s : site) : string :=
  PyStr.join_dot (site_path s ++ [site_leaf s]).

(** The model of the small container. *)
Definition small_model : model.Transformer := instantiated small_config.

(** ** Predicates of the further properties *)

(** The last field named [key]: the one whose value the metadata keeps. *)
Definition last_field (key : string) (fs : list ReaderField) : option ReaderField :=
  find (fun f => String.eqb key (field_name f)) (rev fs).

(** The last tensor whose translated name is [key]. *)
Definition last_tensor (key : string) (ts : list ReaderTensor) : option ReaderTensor :=
  find (fun t => String.eqb key (_convert_gguf_tensor_name_to_llama_nn (name t)))
       (rev ts).

(** The keys that [_build_model_args] requires, in the order it reads
    them. *)
Definition required_keys : list string :=
  [ "general.architecture"; "general.file_type";
    "llama.embedding_length"; "llama.block_count"; "llama.feed_forward_length";
    "tokenizer.ggml.tokens";
    "llama.attention.head_count"; "llama.attention.head_count_kv";
    "llama.attention.layer_norm_rms_epsilon" ].

(** [len(v)] is defined: [v] is a str or a list. *)
Definition has_len (v : value) : bool :=
  match v with
  | VScalar _ => false
  | _ => true
  end.

(** The first required key that [metadata] lacks. *)
Definition first_missing (metadata : gmap string value) : option string :=
  find (fun key => match metadata !! key with Some _ => false | None => true end)
       required_keys.

(** The module and all its submodules are in evaluation mode. *)
Fixpoint all_eval (m : nn.Module) : bool :=
  match m with
  | nn.mk _ t _ _ cs => negb t && forallb (fun nc => all_eval (snd nc)) cs
  end.

(** [c] occurs in [s]. *)
Fixpoint occurs (c : ascii) (s : string) : bool :=
  match s with
  | EmptyString => false
  | String a r => Ascii.eqb c a || occurs c r
  end.

(** [s.isdigit()] on ASCII: every character is a decimal digit. *)
Definition is_digit (c : ascii) : bool :=
  (48 <=? Z.of_N (N_of_ascii c)) && (Z.of_N (N_of_ascii c) <=? 57).

Definition digits (s : string) : bool :=
  forallb is_digit (list_ascii_of_string s).

(** The per-layer tensor names of a "llama" file after [blk.<index>], with
    the names of the model's parameters after [layers.<index>]. *)
Definition per_layer_names : list (string * string) :=
  [ (".attn_q.weight", ".attention.wq.weight");
    (".attn_k.weight", ".attention.wk.weight");
    (".attn_v.weight", ".attention.wv.weight");
    (".attn_output.weight", ".attention.wo.weight");
    (".attn_norm.weight", ".attention_norm.weight");
    (".ffn_down.weight", ".feed_forward.w2.weight");
    (".ffn_gate.weight", ".feed_forward.w1.weight");
    (".ffn_up.weight", ".feed_forward.w3.weight");
    (".ffn_norm.weight", ".ffn_norm.weight") ].

(** ** Inputs of the weight loader *)

(** Some name of [fqns] has a tensor in [weight_map]. *)
Definition matches (weight_map : gmap string ReaderTensor) (fqns : list string) : bool :=
  existsb (fun fqn => match weight_map !! fqn with
                      | Some _ => true
                      | None => false
                      end) fqns.

(** The names of the entries of a model's state. *)
Definition state_names (pt_model : model.Transformer) : list string :=
  map fst (nn.state_dict "" (model.root pt_model)).

(** The 4-bit query projection of the small container, and a tensor that
    names no entry of the model. *)
Definition small_q4_linear : ReaderTensor :=
  {| name := "blk.0.attn_q.weight"; tensor_type := Q4_0; shape := [32; 32];
     tensor_data := {| np_shape := [576]; np_item := fun i => i mod 256 |} |}.

Definition small_rope_freqs : ReaderTensor :=
  {| name := "rope_freqs.weight"; tensor_type := F32; shape := [16];
     tensor_data := {| np_shape := [16]; np_item := fun i => i |} |}.

(** The arguments that the small container gives. *)
Definition small_args : GGUFModelArgs :=
  {| arch := VStr "llama";
     embedding_length := VScalar (SInt 32);
     block_count := VScalar (SInt 1);
     feed_forward_length := VScalar (SInt 64);
     vocab_size := VScalar (SInt 3);
     attention :=
       {| head_count := VScalar (SInt 1);
          head_count_kv := VScalar (SInt 1);
          layer_norm_rms_epsilon := VScalar (SFloat 0x1.4f8b588e368f1p-17%float) |};
     rope := {| freq_base := None;
                dimension_count := Some (VScalar (SInt 32)) |} |}.

(** * Proofs *)

(** ** The embedding at work *)

Example replace_every_occurrence :
  PyStr.replace "ab" "x" "abcabab" = "xcxx".
Proof. reflexivity. Qed.

Example replace_without_overlap :
  PyStr.replace "aa" "b" "aaa" = "ba".
Proof. reflexivity. Qed.

Example replace_empty_pattern :
  PyStr.replace "" "-" "ab" = "-a-b-".
Proof. reflexivity. Qed.

Example translate_output_norm :
  _convert_gguf_tensor_name_to_llama_nn "output_norm.weight" = "norm.weight".
Proof. reflexivity. Qed.

Example translate_attn_norm :
  _convert_gguf_tensor_name_to_llama_nn "blk.12.attn_norm.weight"
  = "layers.12.attention_norm.weight".
Proof. reflexivity. Qed.

Example translate_unknown_name :
  _convert_gguf_tensor_name_to_llama_nn "rope_freqs.weight" = "rope_freqs.weight".
Proof. reflexivity. Qed.

Example split_examples :
  PyStr.split_dot "a.b.c" = ["a"; "b"; "c"]
  /\ PyStr.split_dot "" = [""]
  /\ PyStr.split_dot "a..b" = ["a"; ""; "b"].
Proof. repeat split. Qed.

Example fqn_examples :
  _fqn_up "layers.0.attention.wq.weight" = "layers.0.attention.wq"
  /\ _fqn_up "weight" = ""
  /\ _fqn_last "layers.0.attention.wq.weight" = "weight"
  /\ _fqn_last "weight" = "weight"
  /\ _fqn_down "" "weight" = "weight"
  /\ _fqn_down "norm" "weight" = "norm.weight".
Proof. repeat split. Qed.

Example index_examples :
  py_index [10; 20; 30] (-1) = Ok 30
  /\ py_index [10; 20; 30] 0 = Ok 10
  /\ py_index [10; 20; 30] 3 = Raise IndexError
  /\ py_index [10; 20; 30] (-4) = Raise IndexError.
Proof. repeat split. Qed.

Example field_value_examples :
  field_value (string_field "general.architecture" "llama") = Ok (VStr "llama")
  /\ field_value (number_field "general.file_type" UINT32 (SInt 1))
     = Ok (VScalar (SInt 1))
  /\ field_value (strings_field "tokenizer.ggml.tokens" ["<s>"; "a"])
     = Ok (VStrList ["<s>"; "a"]).
Proof. repeat split. Qed.

Example file_type_as_float_or_bool :
  py_eq_bit (VScalar (SFloat 1%float)) true = true
  /\ py_eq_bit (VScalar (SFloat 2%float)) true = false
  /\ py_eq_bit (VScalar (SBool true)) true = true
  /\ py_eq_bit (VStr "1") true = false.
Proof. repeat split. Qed.

Example reshape_rows_of_nothing :
  is_ok (np.reshape_rows reshape_rows_pass1
           {| np_shape := [0]; np_item := fun i => i |} 18) = true
  /\ option_map torch.shape
       match torch.reshape_rows reshape_rows_pass2
               (torch.from_numpy {| np_shape := [0]; np_item := fun i => i |}) 18
       with Ok t => Some t | Raise _ => None end
     = Some [0; 18].
Proof. repeat split. Qed.

Example unbound_names :
  global_name "GGMLQuantizationType" = Raise (NameError "GGMLQuantizationType")
  /\ global_name "to_float" = Raise (NameError "to_float")
  /\ global_name "_unpack_two_uint8" = Raise (NameError "_unpack_two_uint8")
  /\ global_name "GGMLInt4LinearWeight" = Raise (NameError "GGMLInt4LinearWeight")
  /\ global_name "GGUFValueType" = Ok tt
  /\ global_name "Transformer" = Ok tt
  /\ global_name "print" = Ok tt.
Proof. repeat split. Qed.

Example small_model_parameters :
  map fst (nn.named_parameters "" (model.root small_model))
  = [ "tok_embeddings.weight";
      "layers.0.attention.wq.weight"; "layers.0.attention.wk.weight";
      "layers.0.attention.wv.weight"; "layers.0.attention.wo.weight";
      "layers.0.feed_forward.w1.weight"; "layers.0.feed_forward.w2.weight";
      "layers.0.feed_forward.w3.weight"; "layers.0.ffn_norm.weight";
      "layers.0.attention_norm.weight"; "norm.weight"; "output.weight" ].
Proof. reflexivity. Qed.

Example small_model_well_formed : nn.wf (model.root small_model) = true.
Proof. reflexivity. Qed.

Example small_conversion_as_written :
  convert_from_gguf (small_fs "llama" 1) "model.gguf"
  = ([open_reader "model.gguf"; instantiate small_config],
     Raise (SyntaxError 132)).
Proof. vm_compute. reflexivity. Qed.

Example small_conversion_as_reconstructed :
  convert_from_gguf_under as_reconstructed (small_fs "llama" 1) "model.gguf"
  = ([open_reader "model.gguf"; instantiate small_config],
     Raise (NameError "GGMLQuantizationType")).
Proof. vm_compute. reflexivity. Qed.

Example not_a_container :
  load_gguf_file (small_fs "llama" 1) "notes.txt"
  = ([open_reader "notes.txt"], Raise (ReaderError "notes.txt")).
Proof. reflexivity. Qed.

Example missing_key_is_MissingData :
  _build_model_args
    (delete "llama.block_count" (metadata_of example_metadata))
  = Raise (KeyError "llama.block_count")
  /\ kind_of (KeyError "llama.block_count") = MissingData.
Proof. split; vm_compute; reflexivity. Qed.

(** ** Strings *)

Lemma replace_from_absent (old new s : string) :
  PyStr.contains old s = false -> PyStr.replace_from old new O s = s.
Proof.
  induction s as [|c r IH]; simpl; [reflexivity|].
  intros H. apply orb_false_iff in H as [Hp Hr].
  change (String.prefix old (String c r)) with
    (match old with
     | EmptyString => true
     | String a old' => if ascii_dec a c then String.prefix old' r else false
     end) in Hp.
  destruct old as [|a old'].
  - discriminate.
  - simpl. destruct (ascii_dec a c); rewrite ?Hp; f_equal; auto.
Qed.

Lemma replace_absent (old new s : string) :
  PyStr.contains old s = false -> PyStr.replace old new s = s.
Proof.
  intros H. destruct old as [|a old'].
  - destruct s; discriminate.
  - apply replace_from_absent; exact H.
Qed.

Lemma fold_replace_absent (table : list (string * string)) (s : string) :
  forallb (fun '(old, _) => negb (PyStr.contains old s)) table = true ->
  fold_left (fun result '(old, new) => PyStr.replace old new result) table s = s.
Proof.
  induction table as [|[old new] rest IH]; simpl; [reflexivity|].
  intros H. apply andb_true_iff in H as [Hold Hrest].
  apply negb_true_iff in Hold.
  rewrite (replace_absent _ _ _ Hold). auto.
Qed.

(** C2: the translator applies the eleven substitutions of the table in
    the listed order, every occurrence replaced; it maps
    [blk.3.attn_q.weight] to [layers.3.attention.wq.weight]; and on every
    name whose translation contains none of the table's source substrings
    a second application changes nothing. *)
Theorem translator_in_table_order_and_idempotent :
  (forall s, _convert_gguf_tensor_name_to_llama_nn s = spec_translate s)
  /\ _convert_gguf_tensor_name_to_llama_nn "blk.3.attn_q.weight"
     = "layers.3.attention.wq.weight"
  /\ (forall s,
        collision_free (_convert_gguf_tensor_name_to_llama_nn s) = true ->
        _convert_gguf_tensor_name_to_llama_nn
          (_convert_gguf_tensor_name_to_llama_nn s)
        = _convert_gguf_tensor_name_to_llama_nn s).
Proof.
  split; [|split].
  - intros s. reflexivity.
  - reflexivity.
  - intros s H. apply fold_replace_absent. exact H.
Qed.

Lemma translator_idempotent_witness :
  collision_free (_convert_gguf_tensor_name_to_llama_nn "blk.3.attn_q.weight") = true
  /\ _convert_gguf_tensor_name_to_llama_nn
       (_convert_gguf_tensor_name_to_llama_nn "blk.3.attn_q.weight")
     = _convert_gguf_tensor_name_to_llama_nn "blk.3.attn_q.weight".
Proof.
  split.
  - reflexivity.
  - apply (proj2 (proj2 translator_in_table_order_and_idempotent)). reflexivity.
Defined.

(** ** Results and effects *)

Ltac bind_inv H :=
  repeat match type of H with
         | rbind ?c _ = _ =>
             let E := fresh "E" in destruct c eqn:E; simpl in H; [|discriminate H]
         | match ?c with Ok _ => _ | Raise _ => _ end = _ =>
             let E := fresh "E" in destruct c eqn:E; simpl in H; [|discriminate H]
         | (if ?b then _ else _) = _ =>
             let E := fresh "E" in destruct b eqn:E; simpl in H; try discriminate H
         end.

Lemma getitem_Some (metadata : gmap string value) (key : string) (v : value) :
  metadata !! key = Some v -> getitem metadata key = Ok v.
Proof. unfold getitem. intros ->. reflexivity. Qed.

Lemma getitem_Raise (metadata : gmap string value) (key : string) (e : exn) :
  getitem metadata key = Raise e -> e = KeyError key.
Proof. unfold getitem. destruct (metadata !! key); congruence. Qed.

Lemma py_len_Raise (v : value) (e : exn) :
  py_len v = Raise e -> e = TypeError.
Proof. destruct v; simpl; congruence. Qed.

Lemma py_eq_str_true (v : value) (s : string) :
  py_eq_str v s = true <-> v = VStr s.
Proof.
  destruct v; simpl; split; try discriminate.
  - intros H. apply String.eqb_eq in H. congruence.
  - intros [= ->]. apply String.eqb_refl.
Qed.

Lemma py_eq_str_false (v : value) (s : string) :
  v <> VStr s -> py_eq_str v s = false.
Proof.
  intros H. destruct (py_eq_str v s) eqn:E; [|reflexivity].
  apply py_eq_str_true in E. contradiction.
Qed.

Lemma scalar_eq_bit_is (x : scalar) (bit : bool) :
  scalar_eq_bit x bit = true <-> scalar_is x (Z.b2z bit).
Proof.
  destruct x as [z|f|b]; simpl.
  - apply Z.eqb_eq.
  - destruct bit; reflexivity.
  - destruct b, bit; simpl; split; intros; congruence.
Qed.

(** ** Architecture mapper *)

Lemma build_model_args_arch (metadata : gmap string value) (args : GGUFModelArgs) :
  _build_model_args metadata = Ok args -> arch args = VStr "llama".
Proof.
  unfold _build_model_args. intros H.
  destruct (getitem metadata "general.architecture") as [a|] eqn:Ea;
    simpl in H; [|discriminate].
  destruct (py_eq_str a "llama") eqn:Earch; simpl in H; [|discriminate].
  apply py_eq_str_true in Earch. subst a.
  bind_inv H. injection H as <-. reflexivity.
Qed.

Lemma build_model_args_checks (metadata : gmap string value) (a ft : value) :
  metadata !! "general.architecture" = Some a ->
  (a <> VStr "llama" ->
   _build_model_args metadata = Raise (AssertionError assert_arch))
  /\ (a = VStr "llama" ->
      metadata !! "general.file_type" = Some ft ->
      py_eq_bit ft false || py_eq_bit ft true = false ->
      _build_model_args metadata = Raise (AssertionError assert_file_type))
  /\ (a = VStr "llama" ->
      metadata !! "general.file_type" = Some ft ->
      py_eq_bit ft false || py_eq_bit ft true = true ->
      forall site, _build_model_args metadata <> Raise (AssertionError site)).
Proof.
  intros Ha. unfold _build_model_args.
  rewrite (getitem_Some _ _ _ Ha). simpl.
  split; [|split].
  - intros Hne. rewrite (py_eq_str_false _ _ Hne). reflexivity.
  - intros -> Hft Hbit. simpl. rewrite (getitem_Some _ _ _ Hft). simpl.
    rewrite Hbit. reflexivity.
  - intros -> Hft Hbit site. simpl. rewrite (getitem_Some _ _ _ Hft). simpl.
    rewrite Hbit. simpl.
    repeat match goal with
           | |- context [rbind ?c _] =>
               let E := fresh "E" in
               destruct c eqn:E; simpl;
               [|first [apply getitem_Raise in E | apply py_len_Raise in E];
                 subst; intros [=]]
           end.
    intros [=].
Qed.

Lemma py_index_Raise {A} (l : list A) (i : Z) (e : exn) :
  py_index l i = Raise e -> is_assertion e = false.
Proof.
  unfold py_index. destruct (_ && _); [destruct (nth_error _ _)|];
    intros [= <-]; reflexivity.
Qed.

Lemma decode_utf8_Raise (raw : string) (e : exn) :
  decode_utf8 raw = Raise e -> is_assertion e = false.
Proof. unfold decode_utf8. destruct (utf8_scan _ _ _ _); intros [= <-]; reflexivity. Qed.

Lemma mapM_Raise {A B} (f : A -> result B) (l : list A) (e : exn) :
  (forall x e', f x = Raise e' -> is_assertion e' = false) ->
  mapM f l = Raise e -> is_assertion e = false.
Proof.
  intros Hf. induction l as [|x r IH]; simpl; [discriminate|].
  destruct (f x) eqn:Ex; simpl.
  - destruct (mapM f r); simpl; [discriminate|]. intros [= <-]. auto.
  - intros [= <-]. eauto.
Qed.

Lemma field_value_Raise (field : ReaderField) (e : exn) :
  field_value field = Raise e -> is_assertion e = false.
Proof.
  assert (Hs : forall idx e',
             (do part <- py_index (parts field) idx; decode_utf8 (tobytes part))
             = Raise e' -> is_assertion e' = false).
  { intros idx e'. destruct (py_index (parts field) idx) eqn:E; simpl.
    - apply decode_utf8_Raise.
    - intros [= <-]. eapply py_index_Raise, E. }
  assert (Hn : forall idx e',
             (do part <- py_index (parts field) idx; Ok (tolist part))
             = Raise e' -> is_assertion e' = false).
  { intros idx e'. destruct (py_index (parts field) idx) eqn:E; simpl.
    - discriminate.
    - intros [= <-]. eapply py_index_Raise, E. }
  unfold field_value.
  repeat match goal with
         | |- context [match ?l with [] => _ | _ :: _ => _ end] => destruct l
         | |- context [match ?t with ARRAY => _ | _ => _ end] => destruct t
         end;
    repeat match goal with
           | |- context [rbind ?c _] =>
               let E := fresh "E" in
               destruct c eqn:E; simpl;
               [|intros [= <-];
                 first [eapply py_index_Raise, E
                       |eapply decode_utf8_Raise, E
                       |eapply mapM_Raise; [|exact E]; assumption]]
           | |- context [if ?b then _ else _] => destruct b
           end;
    discriminate.
Qed.

Lemma get_metadata_loop_Raise (fs : list ReaderField) (acc : gmap string value) (e : exn) :
  get_metadata_loop fs acc = Raise e -> is_assertion e = false.
Proof.
  revert acc. induction fs as [|field rest IH]; simpl; intros acc; [discriminate|].
  destruct (field_value field) eqn:E; simpl.
  - apply IH.
  - intros [= <-]. eapply field_value_Raise, E.
Qed.

Lemma build_model_args_Raise (metadata : gmap string value) (e : exn) :
  _build_model_args metadata = Raise e -> e <> AssertionError assert_arch_again.
Proof.
  unfold _build_model_args.
  repeat match goal with
         | |- context [rbind ?c _] =>
             let E := fresh "E" in
             destruct c eqn:E; simpl;
             [|first [apply getitem_Raise in E | apply py_len_Raise in E];
               subst; intros [= <-]; discriminate]
         | |- context [if ?b then _ else _] =>
             destruct b; simpl; [intros [= <-]; discriminate|]
         end.
  discriminate.
Qed.

Lemma as_int_Raise (v : value) (e : exn) :
  as_int v = Raise e -> e = TypeError.
Proof. destruct v as [[]| | |]; simpl; congruence. Qed.

Lemma llama_model_args_Raise (args : GGUFModelArgs) (e : exn) :
  llama_model_args args = Raise e -> e = TypeError.
Proof.
  unfold llama_model_args.
  repeat match goal with
         | |- context [rbind ?c _] =>
             let E := fresh "E" in
             destruct c eqn:E; simpl;
             [|apply as_int_Raise in E; congruence]
         end.
  discriminate.
Qed.

Lemma create_pt_model_Raise (args : GGUFModelArgs) (e : exn) :
  snd (_create_pt_model args) = Raise e -> is_assertion e = false.
Proof.
  unfold _create_pt_model.
  destruct (llama_model_args args) eqn:E; simpl.
  - discriminate.
  - intros [= <-]. apply llama_model_args_Raise in E. subst. reflexivity.
Qed.

(** ** Exceptions of the weight loader *)

Lemma global_name_Raise (x : string) (e : exn) :
  global_name x = Raise e -> e = NameError x.
Proof. unfold global_name. destruct (_ || _); [discriminate|]. intros [= <-]. reflexivity. Qed.

Lemma state_dict_entry_Raise (params : model.ModelArgs) (tensor : ReaderTensor) (e : exn) :
  state_dict_entry params tensor = Raise e -> is_assertion e = false.
Proof.
  unfold state_dict_entry, np.reshape, np.reshape_rows, torch.reshape.
  repeat match goal with
         | |- context [rbind (global_name ?x) _] =>
             let E := fresh "E" in
             destruct (global_name x) eqn:E; simpl;
             [|apply global_name_Raise in E; subst; intros [= <-]; reflexivity]
         | |- context [if ?b then _ else _] => destruct b; simpl
         end;
    try discriminate; intros [= <-]; reflexivity.
Qed.

Lemma state_dict_loop_Raise (params : model.ModelArgs)
      (weight_map : gmap string ReaderTensor) (fqns : list string)
      (acc : gmap string torch.Tensor) (e : exn) :
  state_dict_loop params weight_map fqns acc = Raise e -> is_assertion e = false.
Proof.
  revert acc. induction fqns as [|fqn rest IH]; intros acc H; [discriminate H|].
  cbn [state_dict_loop] in H.
  destruct (weight_map !! fqn) as [tensor|]; [|apply (IH _ H)].
  destruct (state_dict_entry params tensor) eqn:E; cbn [rbind] in H.
  - apply (IH _ H).
  - injection H as <-. eapply state_dict_entry_Raise, E.
Qed.

Lemma takes_Raise (sd : gmap string torch.Tensor) (slots : list (string * nn.Param))
      (e : exn) :
  mapM (nn.takes sd) slots = Raise e -> e = IndexError.
Proof.
  induction slots as [|slot rest IH]; simpl; [discriminate|].
  destruct (nn.takes sd slot) eqn:E; simpl.
  - destruct (mapM (nn.takes sd) rest); simpl; [discriminate|exact IH].
  - intros [= <-]. unfold nn.takes, nn.incoming in E.
    destruct (sd !! fst slot) as [x|]; [|discriminate].
    destruct (nn.shape (snd slot)); [|discriminate].
    destruct (torch.shape x) as [|n [|]]; try discriminate.
    destruct (0 <? n); [discriminate|]. simpl in E. congruence.
Qed.

Lemma state_dict_pass_Raise (pt_model : model.Transformer)
      (weight_map : gmap string ReaderTensor) (e : exn) :
  state_dict_pass pt_model weight_map = Raise e -> is_assertion e = false.
Proof.
  unfold state_dict_pass, nn.load_state_dict.
  destruct (state_dict_loop _ _ _ _) as [sd|e0] eqn:E; simpl.
  - destruct (mapM (nn.takes sd) _) eqn:Et; simpl.
    + destruct (forallb _ _); simpl; [discriminate|]. intros [= <-]. reflexivity.
    + intros [= <-]. apply takes_Raise in Et as ->. reflexivity.
  - intros [= <-]. eapply state_dict_loop_Raise, E.
Qed.

Lemma getattr_Raise (curr : nn.attr) (a : string) (e : exn) :
  nn.getattr curr a = Raise e -> exists a', e = AttributeError a'.
Proof.
  unfold nn.getattr, nn.getattr_module.
  destruct curr; try (intros [= <-]; eauto).
  repeat match goal with
         | |- context [match ?o with Some _ => _ | None => _ end] => destruct o
         end; try discriminate.
  intros [= <-]. eauto.
Qed.

Lemma getattr_each_Raise (atoms : list string) (curr : nn.attr) (e : exn) :
  getattr_each atoms curr = Raise e -> exists a, e = AttributeError a.
Proof.
  revert curr. induction atoms as [|a rest IH]; simpl; intros curr; [discriminate|].
  destruct (nn.getattr curr a) eqn:E; simpl; [apply IH|].
  intros [= <-]. eapply getattr_Raise, E.
Qed.

Lemma parameter_step_Raise (weight_map : gmap string ReaderTensor) (fqn : string)
      (pt_model : nn.Module) (e : exn) :
  snd (parameter_step weight_map fqn pt_model) = Raise e -> is_assertion e = false.
Proof.
  unfold parameter_step.
  destruct (weight_map !! fqn) as [tensor|]; [|discriminate].
  destruct (global_name "GGMLQuantizationType") eqn:Eg0; cbn [lift iobind];
    [|apply global_name_Raise in Eg0; subst; intros [= <-]; reflexivity].
  destruct (is_Q4_0 _); [|discriminate].
  destruct (_fqn_lookup _ _) as [parent|e0] eqn:El; cbn [lift iobind].
  2:{ intros [= <-]. revert El. unfold _fqn_lookup.
      destruct (String.eqb _ _); [discriminate|].
      intros El. apply getattr_each_Raise in El as [a' ->]. reflexivity. }
  destruct (isinstance_Linear parent && _); [|discriminate].
  destruct (nn.getattr parent "weight") as [weight|e0] eqn:Eg; cbn [lift iobind].
  2:{ intros [= <-]. apply getattr_Raise in Eg as [a' ->]. reflexivity. }
  destruct (attr_shape weight) as [weight_shape|e0] eqn:Es; cbn [lift iobind].
  2:{ intros [= <-].
      destruct weight; simpl in Es;
        first [discriminate Es | injection Es as <-; reflexivity]. }
  cbn [emit iobind].
  destruct (torch.reshape_rows _ _ _) as [packed|e0] eqn:Er; cbn [lift iobind].
  2:{ intros [= <-]. unfold torch.reshape_rows in Er.
      destruct (_ =? _); [discriminate|]. injection Er as <-. reflexivity. }
  destruct (global_name "_unpack_two_uint8") eqn:Eg1; cbn [lift iobind];
    [|apply global_name_Raise in Eg1; subst; intros [= <-]; reflexivity].
  destruct (global_name "GGMLInt4LinearWeight") eqn:Eg2; cbn [lift iobind];
    [|apply global_name_Raise in Eg2; subst; intros [= <-]; reflexivity].
  discriminate.
Qed.

Lemma parameter_loop_Raise (weight_map : gmap string ReaderTensor) (fqns : list string)
      (pt_model : nn.Module) (e : exn) :
  snd (parameter_loop weight_map fqns pt_model) = Raise e -> is_assertion e = false.
Proof.
  revert pt_model. induction fqns as [|fqn rest IH]; simpl; intros pt_model;
    [discriminate|].
  destruct (parameter_step weight_map fqn pt_model) as [out [next|e0]] eqn:E; simpl.
  - specialize (IH next). destruct (parameter_loop weight_map rest next). exact IH.
  - intros [= <-]. apply (parameter_step_Raise weight_map fqn pt_model).
    rewrite E. reflexivity.
Qed.

Lemma load_weights_under_Raise (header : loop_header) (pt_model : model.Transformer)
      (weight_map : gmap string ReaderTensor) (e : exn) :
  snd (_load_weights_under header pt_model weight_map) = Raise e ->
  is_assertion e = false.
Proof.
  destruct header; simpl; [intros [= <-]; reflexivity|].
  unfold parameter_pass.
  destruct (state_dict_pass pt_model weight_map) as [loaded|e0] eqn:E1; simpl.
  - pose proof (parameter_loop_Raise weight_map
                  (map fst (nn.named_parameters "" (model.root loaded)))
                  (model.root loaded) e) as Hl.
    destruct (parameter_loop _ _ _) as [out [q|e1]]; simpl in *; [discriminate|].
    intros [= <-]. apply Hl. reflexivity.
  - intros [= <-]. apply (state_dict_pass_Raise _ _ _ E1).
Qed.

Lemma load_weights_Raise (pt_model : model.Transformer)
      (weight_map : gmap string ReaderTensor) (e : exn) :
  snd (_load_weights pt_model weight_map) = Raise e -> is_assertion e = false.
Proof. apply load_weights_under_Raise. Qed.

(** ** Conversion driver *)

Lemma load_gguf_file_of_container (fs : FileSystem) (gguf_file : string)
      (reader : GGUFReader) :
  fs gguf_file = Some (regular_file (Some reader)) ->
  load_gguf_file fs gguf_file
  = ([open_reader gguf_file],
     do metadata <- _get_metadata reader;
     do model_args <- _build_model_args metadata;
     Ok (model_args, {| weights_tensors := tensors reader |})).
Proof.
  intros H. unfold load_gguf_file, is_file, open_GGUFReader. rewrite H. simpl.
  destruct (_get_metadata reader); simpl; [|reflexivity].
  destruct (_build_model_args _); reflexivity.
Qed.

Lemma load_gguf_file_Ok (fs : FileSystem) (gguf_file : string) (out : list event)
      (args : GGUFModelArgs) (weights : GGUFWeights) :
  load_gguf_file fs gguf_file = (out, Ok (args, weights)) ->
  exists metadata, _build_model_args metadata = Ok args.
Proof.
  unfold load_gguf_file, open_GGUFReader.
  destruct (is_file fs gguf_file); simpl; [|discriminate].
  destruct (fs gguf_file) as [[[reader|]|]|]; simpl; try discriminate.
  destruct (_get_metadata reader) as [metadata|]; simpl; [|discriminate].
  destruct (_build_model_args metadata) eqn:E; simpl; [|discriminate].
  intros [= _ <- _]. eauto.
Qed.

Lemma load_gguf_file_Raise (fs : FileSystem) (gguf_file : string) (e : exn) :
  snd (load_gguf_file fs gguf_file) = Raise e -> e <> AssertionError assert_arch_again.
Proof.
  unfold load_gguf_file, open_GGUFReader.
  destruct (is_file fs gguf_file); simpl; [|intros [= <-]; discriminate].
  destruct (fs gguf_file) as [[[reader|]|]|]; simpl;
    try (intros [= <-]; discriminate).
  unfold _get_metadata.
  destruct (get_metadata_loop _ _) as [metadata|e0] eqn:Em; simpl.
  - destruct (_build_model_args metadata) eqn:E; simpl; [discriminate|].
    intros [= <-]. eapply build_model_args_Raise, E.
  - intros [= <-]. apply get_metadata_loop_Raise in Em.
    intros ->. discriminate.
Qed.

(** The conversion once the file was loaded. *)
Lemma convert_from_gguf_under_after_load (header : loop_header) (fs : FileSystem)
      (gguf_file : string) (out : list event)
      (r : result (GGUFModelArgs * GGUFWeights)) :
  load_gguf_file fs gguf_file = (out, r) ->
  (forall e, r = Raise e ->
             convert_from_gguf_under header fs gguf_file = (out, Raise e))
  /\ (forall args weights,
        r = Ok (args, weights) ->
        convert_from_gguf_under header fs gguf_file
        = iobind (out, Ok tt)
            (fun _ => io pt_model <- _create_pt_model args;
                      _load_weights_under header pt_model (build_weight_map weights))).
Proof.
  intros H. unfold convert_from_gguf_under. rewrite H. split.
  - intros e ->. reflexivity.
  - intros args weights ->.
    destruct (load_gguf_file_Ok _ _ _ _ _ H) as [metadata Hm].
    apply build_model_args_arch in Hm. cbn [iobind fst snd]. rewrite Hm.
    change (negb (py_eq_str (VStr "llama") "llama")) with false. cbv iota.
    reflexivity.
Qed.

Lemma convert_from_gguf_after_load (fs : FileSystem) (gguf_file : string)
      (out : list event) (r : result (GGUFModelArgs * GGUFWeights)) :
  load_gguf_file fs gguf_file = (out, r) ->
  (forall e, r = Raise e -> convert_from_gguf fs gguf_file = (out, Raise e))
  /\ (forall args weights,
        r = Ok (args, weights) ->
        convert_from_gguf fs gguf_file
        = iobind (out, Ok tt)
            (fun _ => io pt_model <- _create_pt_model args;
                      _load_weights pt_model (build_weight_map weights))).
Proof. apply convert_from_gguf_under_after_load. Qed.



(** C9: a record returned by a successful [load_gguf_file] has [arch]
    equal to ["llama"], and [convert_from_gguf] never fails at its own
    assertion on the architecture. *)
Theorem loaded_arch_is_llama (fs : FileSystem) (gguf_file : string) :
  (forall out args weights,
     load_gguf_file fs gguf_file = (out, Ok (args, weights)) ->
     arch args = VStr "llama")
  /\ snd (convert_from_gguf fs gguf_file) <> Raise (AssertionError assert_arch_again).
Proof.
  split.
  - intros out args weights H.
    destruct (load_gguf_file_Ok _ _ _ _ _ H) as [metadata Hm].
    eapply build_model_args_arch, Hm.
  - destruct (load_gguf_file fs gguf_file) as [out r] eqn:E.
    destruct (convert_from_gguf_after_load _ _ _ _ E) as [Hraise Hok].
    destruct r as [[args weights]|e].
    + rewrite (Hok args weights eq_refl). cbn [iobind].
      destruct (_create_pt_model args) as [out1 [pt_model|e]] eqn:Ec; cbn [iobind snd].
      * pose proof (load_weights_Raise pt_model (build_weight_map weights)) as Hl.
        destruct (_load_weights pt_model _) as [out2 [m|e]]; cbn [snd] in *;
          [discriminate|].
        intros [= ->]. specialize (Hl _ eq_refl). discriminate.
      * pose proof (create_pt_model_Raise args e) as Hc. rewrite Ec in Hc.
        intros [= ->]. specialize (Hc eq_refl). discriminate.
    + rewrite (Hraise e eq_refl). simpl. intros [= ->].
      apply (load_gguf_file_Raise fs gguf_file (AssertionError assert_arch_again));
        [rewrite E|]; reflexivity.
Qed.

Lemma loaded_arch_witness :
  exists out args weights,
    load_gguf_file (small_fs "llama" 1) "model.gguf" = (out, Ok (args, weights))
    /\ arch args = VStr "llama".
Proof.
  destruct (load_gguf_file (small_fs "llama" 1) "model.gguf")
    as [out [[args weights]|e]] eqn:E.
  - exists out, args, weights. split; [reflexivity|].
    exact (proj1 (loaded_arch_is_llama (small_fs "llama" 1) "model.gguf")
                 out args weights E).
  - vm_compute in E. discriminate E.
Defined.

Lemma convert_from_gguf_rejects (fs : FileSystem) (gguf_file : string)
      (reader : GGUFReader) (metadata : gmap string value) (e : exn) :
  fs gguf_file = Some (regular_file (Some reader)) ->
  _get_metadata reader = Ok metadata ->
  _build_model_args metadata = Raise e ->
  convert_from_gguf fs gguf_file = ([open_reader gguf_file], Raise e).
Proof.
  intros Hfs Hmd Hargs.
  pose proof (load_gguf_file_of_container _ _ _ Hfs) as Hload.
  rewrite Hmd in Hload. simpl in Hload. rewrite Hargs in Hload. simpl in Hload.
  apply (proj1 (convert_from_gguf_after_load _ _ _ _ Hload)). reflexivity.
Qed.

Lemma convert_from_gguf_assertion (fs : FileSystem) (gguf_file : string)
      (reader : GGUFReader) (metadata : gmap string value) :
  fs gguf_file = Some (regular_file (Some reader)) ->
  _get_metadata reader = Ok metadata ->
  (forall site, _build_model_args metadata <> Raise (AssertionError site)) ->
  forall site, snd (convert_from_gguf fs gguf_file) <> Raise (AssertionError site).
Proof.
  intros Hfs Hmd Hargs site.
  pose proof (load_gguf_file_of_container _ _ _ Hfs) as Hload.
  rewrite Hmd in Hload. simpl in Hload.
  destruct (convert_from_gguf_after_load _ _ _ _ Hload) as [Hraise Hok].
  destruct (_build_model_args metadata) as [args|e] eqn:E; simpl in *.
  - rewrite (Hok args _ eq_refl). cbn [iobind].
    destruct (_create_pt_model args) as [out1 [pt_model|e]] eqn:Ec; cbn [iobind snd].
    + pose proof (load_weights_Raise pt_model
                    (build_weight_map {| weights_tensors := tensors reader |})) as Hl.
      destruct (_load_weights pt_model _) as [out2 [m|e]]; cbn [snd] in *;
        [discriminate|].
      intros [= ->]. specialize (Hl _ eq_refl). discriminate.
    + pose proof (create_pt_model_Raise args e) as Hc. rewrite Ec in Hc.
      intros [= ->]. specialize (Hc eq_refl). discriminate.
  - rewrite (Hraise e eq_refl). simpl. intros [= ->]. apply (Hargs site). reflexivity.
Qed.

Lemma file_type_check (x : scalar) :
  py_eq_bit (VScalar x) false || py_eq_bit (VScalar x) true = true
  <-> scalar_is x 0 \/ scalar_is x 1.
Proof.
  simpl. rewrite orb_true_iff.
  rewrite (scalar_eq_bit_is x false), (scalar_eq_bit_is x true). reflexivity.
Qed.

(** C1: on a container whose metadata declares an architecture, a
    declared architecture other than ["llama"], or a declared numeric file
    type other than 0 and 1, makes [convert_from_gguf] fail with the
    InvalidInput assertion before any model is instantiated; and when the
    architecture is ["llama"] and the file type is 0 or 1, neither check
    fails (no assertion does). *)
Theorem unsupported_file_rejected_before_instantiation
        (fs : FileSystem) (gguf_file : string) (reader : GGUFReader)
        (metadata : gmap string value) (a : value) :
  fs gguf_file = Some (regular_file (Some reader)) ->
  _get_metadata reader = Ok metadata ->
  metadata !! "general.architecture" = Some a ->
  (a <> VStr "llama"
   \/ (exists x, metadata !! "general.file_type" = Some (VScalar x)
                 /\ ~ scalar_is x 0 /\ ~ scalar_is x 1) ->
   exists out site,
     convert_from_gguf fs gguf_file = (out, Raise (AssertionError site))
     /\ (site = assert_arch \/ site = assert_file_type)
     /\ kind_of (AssertionError site) = InvalidInput
     /\ nothing_instantiated out = true)
  /\ (forall x,
        a = VStr "llama" ->
        metadata !! "general.file_type" = Some (VScalar x) ->
        scalar_is x 0 \/ scalar_is x 1 ->
        (forall site, _build_model_args metadata <> Raise (AssertionError site))
        /\ (forall site,
              snd (convert_from_gguf fs gguf_file) <> Raise (AssertionError site))).
Proof.
  intros Hfs Hmd Ha.
  assert (Harch : a <> VStr "llama" ->
                  exists out site,
                    convert_from_gguf fs gguf_file = (out, Raise (AssertionError site))
                    /\ (site = assert_arch \/ site = assert_file_type)
                    /\ kind_of (AssertionError site) = InvalidInput
                    /\ nothing_instantiated out = true).
  { intros Hne. exists [open_reader gguf_file], assert_arch.
    split; [|auto].
    eapply convert_from_gguf_rejects; eauto.
    apply (proj1 (build_model_args_checks metadata a a Ha) Hne). }
  split.
  - intros [Hne|(x & Hft & H0 & H1)]; [auto|].
    destruct (py_eq_str a "llama") eqn:Ea.
    + apply py_eq_str_true in Ea.
      exists [open_reader gguf_file], assert_file_type.
      split; [|auto].
      eapply convert_from_gguf_rejects; eauto.
      apply (proj1 (proj2 (build_model_args_checks metadata a _ Ha)) Ea Hft).
      destruct (py_eq_bit (VScalar x) false || py_eq_bit (VScalar x) true) eqn:Eb;
        [|reflexivity].
      apply file_type_check in Eb. tauto.
    + apply Harch. intros ->. simpl in Ea. discriminate.
  - intros x Hllama Hft Hbit.
    assert (Hno : forall site, _build_model_args metadata <> Raise (AssertionError site)).
    { apply (proj2 (proj2 (build_model_args_checks metadata a _ Ha)) Hllama Hft).
      apply file_type_check. exact Hbit. }
    split; [exact Hno|].
    eapply convert_from_gguf_assertion; eauto.
Qed.

Lemma unsupported_file_witness :
  (exists out site,
     convert_from_gguf (small_fs "gpt2" 1) "model.gguf"
     = (out, Raise (AssertionError site))
     /\ (site = assert_arch \/ site = assert_file_type)
     /\ kind_of (AssertionError site) = InvalidInput
     /\ nothing_instantiated out = true)
  /\ (exists out site,
        convert_from_gguf (small_fs "llama" 2) "model.gguf"
        = (out, Raise (AssertionError site))
        /\ (site = assert_arch \/ site = assert_file_type)
        /\ kind_of (AssertionError site) = InvalidInput
        /\ nothing_instantiated out = true)
  /\ (forall site,
        snd (convert_from_gguf (small_fs "llama" 1) "model.gguf")
        <> Raise (AssertionError site)).
Proof.
  split; [|split].
  - refine (proj1 (unsupported_file_rejected_before_instantiation
                     (small_fs "gpt2" 1) "model.gguf" (small_reader "gpt2" 1)
                     _ (VStr "gpt2") eq_refl eq_refl _) _).
    + vm_compute. reflexivity.
    + left. discriminate.
  - refine (proj1 (unsupported_file_rejected_before_instantiation
                     (small_fs "llama" 2) "model.gguf" (small_reader "llama" 2)
                     _ (VStr "llama") eq_refl eq_refl _) _).
    + vm_compute. reflexivity.
    + right. exists (SInt 2). split; [vm_compute; reflexivity|].
      split; simpl; lia.
  - refine (proj2 (proj2 (unsupported_file_rejected_before_instantiation
                     (small_fs "llama" 1) "model.gguf" (small_reader "llama" 1)
                     _ (VStr "llama") eq_refl eq_refl _) (SInt 1) eq_refl _ _)).
    + vm_compute. reflexivity.
    + vm_compute. reflexivity.
    + right. reflexivity.
Defined.

(** ** Model instantiator *)

Lemma build_model_args_same_but_rope (metadata1 metadata2 : gmap string value) :
  same_but_rope metadata1 metadata2 ->
  _build_model_args metadata1
  = match _build_model_args metadata2 with
    | Ok args =>
        Ok (with_rope args
              {| freq_base := metadata1 !! "llama.rope.freq_base";
                 dimension_count := metadata1 !! "llama.rope.dimension_count" |})
    | Raise e => Raise e
    end.
Proof.
  intros H.
  assert (Hk : forall key,
             key <> "llama.rope.freq_base" ->
             key <> "llama.rope.dimension_count" ->
             getitem metadata1 key = getitem metadata2 key).
  { intros key H1 H2. unfold getitem. rewrite (H key H1 H2). reflexivity. }
  unfold _build_model_args.
  rewrite (Hk "general.architecture") by discriminate.
  destruct (getitem metadata2 "general.architecture") as [a|]; simpl; [|reflexivity].
  destruct (py_eq_str a "llama") eqn:Ea; simpl; [|reflexivity].
  apply py_eq_str_true in Ea. subst a.
  rewrite (Hk "general.file_type") by discriminate.
  destruct (getitem metadata2 "general.file_type") as [ft|]; simpl; [|reflexivity].
  destruct (py_eq_bit ft false || py_eq_bit ft true); simpl; [|reflexivity].
  repeat match goal with
         | |- context [rbind (getitem metadata1 ?key) _] =>
             rewrite (Hk key) by discriminate;
             destruct (getitem metadata2 key); simpl; [|reflexivity]
         | |- context [rbind (py_len ?v) _] =>
             destruct (py_len v); simpl; [|reflexivity]
         end.
  reflexivity.
Qed.

(** C10: the instantiator ignores the rope configuration.  Two records
    that differ in their rope fields only give the same target-model
    configuration and the same model; so do two metadata mappings that
    differ in [llama.rope.freq_base] and [llama.rope.dimension_count]
    only. *)
Theorem rope_configuration_ignored :
  (forall (gguf_model_args : GGUFModelArgs) (r1 r2 : RopeArgs),
     llama_model_args (with_rope gguf_model_args r1)
     = llama_model_args (with_rope gguf_model_args r2)
     /\ _create_pt_model (with_rope gguf_model_args r1)
        = _create_pt_model (with_rope gguf_model_args r2))
  /\ (forall metadata1 metadata2 : gmap string value,
        same_but_rope metadata1 metadata2 ->
        instantiate_from metadata1 = instantiate_from metadata2).
Proof.
  split.
  - intros args r1 r2. split; reflexivity.
  - intros metadata1 metadata2 H. unfold instantiate_from.
    rewrite (build_model_args_same_but_rope _ _ H).
    destruct (_build_model_args metadata2) as [args|e]; reflexivity.
Qed.

Lemma rope_configuration_witness :
  instantiate_from
    (<["llama.rope.freq_base" := VScalar (SFloat 10000%float)]>
       (metadata_of example_metadata))
  = instantiate_from (metadata_of example_metadata).
Proof.
  apply (proj2 rope_configuration_ignored).
  intros key H1 H2. apply lookup_insert_ne. congruence.
Defined.

Lemma blocks_new_Transformer (config : model.ModelArgs) :
  List.length
    (model.blocks
       {| model.params := config;
          model.root := nn.eval (model.root (model.new_Transformer config)) |})
  = Z.to_nat (model.n_layer config).
Proof.
  unfold model.blocks. simpl.
  rewrite length_map, length_combine, length_map, length_seq, repeat_length.
  apply Nat.min_id.
Qed.

Lemma build_model_args_declares (metadata : gmap string value) (w : llama_metadata) :
  declares metadata w ->
  md_file_type w = 0 \/ md_file_type w = 1 ->
  _build_model_args metadata
  = Ok {| arch := VStr "llama";
          embedding_length := VScalar (SInt (md_embedding_length w));
          block_count := VScalar (SInt (md_block_count w));
          feed_forward_length := VScalar (SInt (md_feed_forward_length w));
          vocab_size := VScalar (SInt (Z.of_nat (List.length (md_tokens w))));
          attention :=
            {| head_count := VScalar (SInt (md_head_count w));
               head_count_kv := VScalar (SInt (md_head_count_kv w));
               layer_norm_rms_epsilon :=
                 VScalar (SFloat (md_layer_norm_rms_epsilon w)) |};
          rope :=
            {| freq_base := metadata !! "llama.rope.freq_base";
               dimension_count := metadata !! "llama.rope.dimension_count" |} |}.
Proof.
  intros (Ha & Hft & Htok & Hel & Hbc & Hff & Hhc & Hkv & Heps) Hbit.
  unfold _build_model_args.
  rewrite (getitem_Some _ _ _ Ha). simpl.
  rewrite (getitem_Some _ _ _ Hft). simpl.
  replace (md_file_type w =? 0) with (negb (md_file_type w =? 1)) by
    (destruct Hbit as [-> | ->]; reflexivity).
  rewrite orb_negb_l. simpl. cbv [String.append].
  rewrite (getitem_Some _ _ _ Hel). simpl.
  rewrite (getitem_Some _ _ _ Hbc). simpl.
  rewrite (getitem_Some _ _ _ Hff). simpl.
  rewrite (getitem_Some _ _ _ Htok). simpl.
  rewrite (getitem_Some _ _ _ Hhc). simpl.
  rewrite (getitem_Some _ _ _ Hkv). simpl.
  rewrite (getitem_Some _ _ _ Heps). simpl.
  reflexivity.
Qed.

Lemma declares_metadata_of (w : llama_metadata) : declares (metadata_of w) w.
Proof.
  unfold declares, metadata_of.
  repeat split;
    repeat first [ apply lookup_insert_eq
                 | rewrite lookup_insert_ne by discriminate ].
Qed.

(** C6: for well-formed "llama" metadata the record's [vocab_size] is the
    length of the [tokenizer.ggml.tokens] array, whatever else the mapping
    declares, its [block_count] is the [llama.block_count] value, and the
    model instantiated from it has exactly that many transformer blocks;
    the example metadata gives 32000, 2 and a model with 2 blocks. *)
Theorem vocab_size_and_block_count :
  (forall (metadata : gmap string value) (w : llama_metadata),
     declares metadata w ->
     md_file_type w = 0 \/ md_file_type w = 1 ->
     0 <= md_block_count w ->
     exists args config pt_model,
       _build_model_args metadata = Ok args
       /\ vocab_size args = VScalar (SInt (Z.of_nat (List.length (md_tokens w))))
       /\ block_count args = VScalar (SInt (md_block_count w))
       /\ _create_pt_model args = ([instantiate config], Ok pt_model)
       /\ Z.of_nat (List.length (model.blocks pt_model)) = md_block_count w)
  /\ (exists args config pt_model,
        _build_model_args (metadata_of example_metadata) = Ok args
        /\ vocab_size args = VScalar (SInt 32000)
        /\ block_count args = VScalar (SInt 2)
        /\ _create_pt_model args = ([instantiate config], Ok pt_model)
        /\ List.length (model.blocks pt_model) = 2%nat).
Proof.
  assert (General :
    forall (metadata : gmap string value) (w : llama_metadata),
      declares metadata w ->
      md_file_type w = 0 \/ md_file_type w = 1 ->
      exists args config pt_model,
        _build_model_args metadata = Ok args
        /\ vocab_size args = VScalar (SInt (Z.of_nat (List.length (md_tokens w))))
        /\ block_count args = VScalar (SInt (md_block_count w))
        /\ _create_pt_model args = ([instantiate config], Ok pt_model)
        /\ List.length (model.blocks pt_model) = Z.to_nat (md_block_count w)).
  { intros metadata w Hd Hft.
    eexists _, _, _. split; [apply (build_model_args_declares _ w); assumption|].
    split; [reflexivity|]. split; [reflexivity|]. split; [reflexivity|].
    apply blocks_new_Transformer. }
  split.
  - intros metadata w Hd Hft Hbc.
    destruct (General metadata w Hd Hft)
      as (args & config & pt_model & H1 & H2 & H3 & H4 & H5).
    exists args, config, pt_model. repeat split; try assumption.
    rewrite H5. apply Z2Nat.id. exact Hbc.
  - destruct (General (metadata_of example_metadata) example_metadata)
      as (args & config & pt_model & H1 & H2 & H3 & H4 & H5).
    + apply declares_metadata_of.
    + left. reflexivity.
    + exists args, config, pt_model.
      repeat split; assumption.
Qed.

Lemma vocab_size_and_block_count_witness :
  exists args config pt_model,
    _build_model_args (metadata_of example_metadata) = Ok args
    /\ vocab_size args
       = VScalar (SInt (Z.of_nat (List.length (md_tokens example_metadata))))
    /\ block_count args = VScalar (SInt (md_block_count example_metadata))
    /\ _create_pt_model args = ([instantiate config], Ok pt_model)
    /\ Z.of_nat (List.length (model.blocks pt_model))
       = md_block_count example_metadata.
Proof.
  apply (proj1 vocab_size_and_block_count (metadata_of example_metadata)
               example_metadata).
  - apply declares_metadata_of.
  - left. reflexivity.
  - simpl. lia.
Defined.

(** ** Module trees *)

Lemma Module_ind' (P : nn.Module -> Prop) :
  (forall c t ps bs cs,
      Forall (fun nc => P (snd nc)) cs -> P (nn.mk c t ps bs cs)) ->
  forall m, P m.
Proof.
  intros step. fix IH 1. intros [c t ps bs cs]. apply step.
  induction cs as [|nc r IHr]; constructor; [apply IH|exact IHr].
Qed.

Lemma assoc_In_fst {A} (k : string) (l : list (string * A)) :
  nn.assoc k l <> None <-> In k (map fst l).
Proof.
  induction l as [|[k' v'] r IH]; simpl; [tauto|].
  destruct (String.eqb_spec k k'); [subst; split; [auto|discriminate]|].
  rewrite IH. split; [auto|]. intros [->|H]; [contradiction|exact H].
Qed.

Lemma assign_empty (m : nn.Module) :
  forall prefix, nn.assign prefix (empty : gmap string torch.Tensor) m = m.
Proof.
  induction m as [c t ps bs cs IH] using Module_ind'. intros prefix. simpl.
  f_equal.
  - rewrite <- (map_id ps) at 2. apply map_ext. intros [k v]. simpl.
    rewrite lookup_empty. reflexivity.
  - rewrite <- (map_id bs) at 2. apply map_ext. intros [k v]. simpl.
    rewrite lookup_empty. reflexivity.
  - rewrite <- (map_id cs) at 2. apply map_ext_Forall.
    eapply Forall_impl; [exact IH|].
    intros [k c'] H. simpl in *. rewrite H. reflexivity.
Qed.

Lemma named_parameters_in_state_dict (m : nn.Module) :
  forall prefix kv,
    In kv (nn.named_parameters prefix m) -> In kv (nn.state_dict prefix m).
Proof.
  induction m as [c t ps bs cs IH] using Module_ind'. intros prefix kv. simpl.
  rewrite !in_app_iff, !in_flat_map. intros [H|(nc & Hnc & H)]; [auto|].
  right. right. exists nc. split; [exact Hnc|].
  rewrite List.Forall_forall in IH. apply (IH nc Hnc). exact H.
Qed.

(** ** Dotted names *)

Lemma append_String (c : ascii) (a s : string) :
  (String c a ++ s)%string = String c (a ++ s)%string.
Proof. reflexivity. Qed.

Lemma atom_ok_spec (a : string) :
  nn.atom_ok a = true <-> a <> EmptyString /\ PyStr.has_dot a = false.
Proof.
  unfold nn.atom_ok. rewrite andb_true_iff, !negb_true_iff.
  split; intros [H1 H2]; (split; [|exact H2]).
  - intros ->. discriminate.
  - destruct a; [contradiction|reflexivity].
Qed.

Lemma split_dot_atom (a : string) :
  PyStr.has_dot a = false -> PyStr.split_dot a = [a].
Proof.
  induction a as [|c a IH]; simpl; [reflexivity|].
  intros H. apply orb_false_iff in H as [Hc Ha].
  rewrite Hc, (IH Ha). reflexivity.
Qed.

Lemma split_dot_append (a s : string) :
  PyStr.has_dot a = false ->
  PyStr.split_dot (a ++ String PyStr.dot s) = a :: PyStr.split_dot s.
Proof.
  induction a as [|c a IH]; intros H.
  - reflexivity.
  - simpl in H. apply orb_false_iff in H as [Hc Ha].
    rewrite append_String. simpl. rewrite Hc, (IH Ha). reflexivity.
Qed.

Lemma join_dot_cons (a b : string) (rest : list string) :
  PyStr.join_dot (a :: b :: rest) = (a ++ String PyStr.dot (PyStr.join_dot (b :: rest)))%string.
Proof. reflexivity. Qed.

Lemma split_dot_join (atoms : list string) :
  atoms <> [] ->
  Forall (fun a => PyStr.has_dot a = false) atoms ->
  PyStr.split_dot (PyStr.join_dot atoms) = atoms.
Proof.
  induction atoms as [|a rest IH]; [contradiction|].
  intros _ H. inversion H as [|? ? Ha Hrest]; subst.
  destruct rest as [|b rest].
  - apply split_dot_atom. exact Ha.
  - rewrite join_dot_cons, (split_dot_append _ _ Ha), IH; [reflexivity| |exact Hrest].
    discriminate.
Qed.

Lemma append_assoc (a b c : string) :
  ((a ++ b) ++ c)%string = (a ++ (b ++ c))%string.
Proof.
  induction a as [|x a IH]; [reflexivity|].
  rewrite !append_String, IH. reflexivity.
Qed.

Lemma join_dot_snoc (atoms : list string) (k : string) :
  atoms <> [] ->
  PyStr.join_dot (atoms ++ [k]) = (PyStr.join_dot atoms ++ String PyStr.dot k)%string.
Proof.
  induction atoms as [|a rest IH]; [contradiction|]. intros _.
  destruct rest as [|b rest]; [reflexivity|].
  change ((a :: b :: rest) ++ [k])%list with (a :: ((b :: rest) ++ [k]))%list.
  change ((b :: rest) ++ [k])%list with (b :: (rest ++ [k]))%list.
  rewrite join_dot_cons.
  change (b :: (rest ++ [k]))%list with ((b :: rest) ++ [k])%list.
  rewrite IH by discriminate.
  rewrite join_dot_cons, append_assoc, append_String. reflexivity.
Qed.

Lemma join_dot_nonempty (atoms : list string) :
  atoms <> [] ->
  Forall (fun a => nn.atom_ok a = true) atoms ->
  PyStr.join_dot atoms <> EmptyString.
Proof.
  destruct atoms as [|a rest]; [contradiction|]. intros _ H.
  inversion H as [|? ? Ha _]; subst. apply atom_ok_spec in Ha as [Ha _].
  destruct a as [|c a]; [contradiction|].
  destruct rest; simpl; discriminate.
Qed.

Lemma Forall_atom_ok_dot_free (atoms : list string) :
  Forall (fun a => nn.atom_ok a = true) atoms ->
  Forall (fun a => PyStr.has_dot a = false) atoms.
Proof.
  intros H. eapply Forall_impl; [exact H|]. intros a Ha. apply atom_ok_spec, Ha.
Qed.

Lemma qualify_join (pre : list string) (k : string) :
  Forall (fun a => nn.atom_ok a = true) pre ->
  nn.qualify (PyStr.join_dot pre) k = PyStr.join_dot (pre ++ [k]).
Proof.
  intros H. destruct pre as [|a rest]; [reflexivity|].
  rewrite join_dot_snoc by discriminate. unfold nn.qualify.
  pose proof (join_dot_nonempty (a :: rest) ltac:(discriminate) H) as Hne.
  destruct (PyStr.join_dot (a :: rest)); [contradiction|reflexivity].
Qed.

Lemma fqn_atoms_join (path : list string) :
  Forall (fun a => nn.atom_ok a = true) path ->
  fqn_atoms (PyStr.join_dot path) = path.
Proof.
  intros H. unfold fqn_atoms. destruct path as [|a rest]; [reflexivity|].
  pose proof (join_dot_nonempty (a :: rest) ltac:(discriminate) H) as Hne.
  destruct (String.eqb_spec (PyStr.join_dot (a :: rest)) ""); [contradiction|].
  apply split_dot_join; [discriminate|]. apply Forall_atom_ok_dot_free, H.
Qed.

Lemma fqn_lookup_join (path : list string) (m : nn.Module) :
  Forall (fun a => nn.atom_ok a = true) path ->
  _fqn_lookup (PyStr.join_dot path) m = getattr_each path (nn.attr_module m).
Proof.
  intros H. pose proof (fqn_atoms_join path H) as Ha.
  unfold _fqn_lookup, fqn_atoms in *.
  destruct (String.eqb (PyStr.join_dot path) ""); subst; [|rewrite Ha]; reflexivity.
Qed.

(** ** Parameter slots of a well-formed tree *)

Lemma distinct_NoDup (l : list string) :
  nn.distinct l = true <-> List.NoDup l.
Proof.
  induction l as [|a r IH]; simpl.
  - split; [constructor|reflexivity].
  - rewrite andb_true_iff, negb_true_iff, IH. split.
    + intros [Ha Hr]. constructor; [|exact Hr].
      intros Hin. assert (existsb (String.eqb a) r = true); [|congruence].
      apply existsb_exists. exists a. split; [exact Hin|apply String.eqb_refl].
    + intros H. inversion H as [|? ? Ha Hr]; subst. split; [|exact Hr].
      destruct (existsb (String.eqb a) r) eqn:E; [|reflexivity].
      apply existsb_exists in E as (x & Hx & Heq).
      apply String.eqb_eq in Heq. subst x. contradiction.
Qed.

Lemma wf_mk (c : nn.module_class) (t : bool) (ps : list (string * nn.Param))
      (bs : list (string * torch.Tensor)) (cs : list (string * nn.Module)) :
  nn.wf (nn.mk c t ps bs cs) = true <->
  Forall (fun a => nn.atom_ok a = true) (map fst ps ++ map fst bs ++ map fst cs)
  /\ List.NoDup (map fst ps ++ map fst bs ++ map fst cs)
  /\ Forall (fun nc => nn.wf (snd nc) = true) cs.
Proof.
  simpl. rewrite !andb_true_iff, distinct_NoDup, !forallb_forall, !List.Forall_forall.
  tauto.
Qed.

Lemma assoc_NoDup {A} (k : string) (v : A) (l : list (string * A)) :
  List.NoDup (map fst l) -> In (k, v) l -> nn.assoc k l = Some v.
Proof.
  induction l as [|[k' v'] r IH]; simpl; [contradiction|].
  intros Hnd Hin. inversion Hnd as [|? ? Hk' Hr]; subst.
  destruct Hin as [[= -> ->]|Hin]; [rewrite String.eqb_refl; reflexivity|].
  destruct (String.eqb_spec k k') as [->|Hne]; [|auto].
  exfalso. apply Hk'. apply in_map_iff. exists (k', v). auto.
Qed.

Lemma assoc_None {A} (k : string) (l : list (string * A)) :
  ~ In k (map fst l) -> nn.assoc k l = None.
Proof.
  intros H. destruct (nn.assoc k l) eqn:E; [|reflexivity].
  exfalso. apply H, assoc_In_fst. congruence.
Qed.

Lemma NoDup_app_l {A} (a b : list A) : List.NoDup (a ++ b) -> List.NoDup a.
Proof.
  induction a as [|x a IH]; simpl; [constructor|].
  intros H. inversion H as [|? ? Hx Hr]; subst.
  constructor; [|auto]. intros Hin. apply Hx, in_or_app. auto.
Qed.

Lemma NoDup_app_r {A} (a b : list A) : List.NoDup (a ++ b) -> List.NoDup b.
Proof.
  induction a as [|x a IH]; simpl; [auto|].
  intros H. inversion H; subst. auto.
Qed.

Lemma NoDup_app_disjoint {A} (a b : list A) (x : A) :
  List.NoDup (a ++ b) -> In x a -> ~ In x b.
Proof.
  induction a as [|y a IH]; simpl; [contradiction|].
  intros H Hin Hb. inversion H as [|? ? Hy Hr]; subst.
  destruct Hin as [->|Hin]; [apply Hy, in_or_app; auto|exact (IH Hr Hin Hb)].
Qed.

Lemma sites_atoms_ok (m : nn.Module) :
  nn.wf m = true ->
  forall s, In s (sites m) ->
            Forall (fun a => nn.atom_ok a = true) (site_path s)
            /\ nn.atom_ok (site_leaf s) = true.
Proof.
  induction m as [c t ps bs cs IH] using Module_ind'. intros Hwf s Hs.
  apply wf_mk in Hwf as (Hok & _ & Hcs).
  rewrite List.Forall_forall in Hok, Hcs, IH.
  simpl in Hs. apply in_app_or in Hs as [Hs|Hs].
  - apply in_map_iff in Hs as ([k v] & <- & Hin). simpl. split; [constructor|].
    apply Hok, in_or_app. left. apply in_map_iff. exists (k, v). auto.
  - apply in_flat_map in Hs as ([a c'] & Hin & Hs). simpl in Hs.
    apply in_map_iff in Hs as (s0 & <- & Hs0).
    destruct (IH _ Hin (Hcs _ Hin) s0 Hs0) as [Hp Hl]. simpl. split; [|exact Hl].
    constructor; [|exact Hp].
    apply Hok, in_or_app. right. apply in_or_app. right.
    apply in_map_iff. exists (a, c'). auto.
Qed.

Lemma names_of_child (P B C : list string) (a : string) :
  List.NoDup (P ++ B ++ C) -> In a C -> ~ In a P /\ ~ In a B /\ List.NoDup C.
Proof.
  intros Hnd Ha. split; [|split].
  - intros Hp. apply (NoDup_app_disjoint _ _ a Hnd Hp). apply in_or_app. auto.
  - intros Hb. apply NoDup_app_r in Hnd. exact (NoDup_app_disjoint _ _ a Hnd Hb Ha).
  - apply NoDup_app_r in Hnd. apply NoDup_app_r in Hnd. exact Hnd.
Qed.

Lemma In_fst {A} (k : string) (v : A) (l : list (string * A)) :
  In (k, v) l -> In k (map fst l).
Proof. intros H. apply in_map_iff. exists (k, v). auto. Qed.

Lemma getattr_module_child (c : nn.module_class) (t : bool)
      (ps : list (string * nn.Param)) (bs : list (string * torch.Tensor))
      (cs : list (string * nn.Module)) (a : string) (c' : nn.Module) :
  List.NoDup (map fst ps ++ map fst bs ++ map fst cs) ->
  In (a, c') cs ->
  nn.getattr_module (nn.mk c t ps bs cs) a = Ok (nn.attr_module c').
Proof.
  intros Hnd Hin.
  destruct (names_of_child _ _ _ a Hnd (In_fst _ _ _ Hin)) as (Hp & Hb & Hc).
  unfold nn.getattr_module. simpl.
  rewrite (assoc_None _ _ Hp), (assoc_None _ _ Hb), (assoc_NoDup _ _ _ Hc Hin).
  reflexivity.
Qed.

Lemma getattr_each_site (m : nn.Module) :
  nn.wf m = true ->
  forall s, In s (sites m) ->
            exists sub,
              getattr_each (site_path s) (nn.attr_module m) = Ok (nn.attr_module sub)
              /\ nn.cls sub = site_cls s
              /\ nn.assoc (site_leaf s) (nn._parameters sub) = Some (site_value s).
Proof.
  induction m as [c t ps bs cs IH] using Module_ind'. intros Hwf s Hs.
  apply wf_mk in Hwf as (_ & Hnd & Hcs).
  rewrite List.Forall_forall in Hcs, IH.
  simpl in Hs. apply in_app_or in Hs as [Hs|Hs].
  - apply in_map_iff in Hs as ([k v] & <- & Hin). simpl.
    exists (nn.mk c t ps bs cs). split; [reflexivity|]. split; [reflexivity|].
    simpl. apply assoc_NoDup; [apply (NoDup_app_l _ _ Hnd)|exact Hin].
  - apply in_flat_map in Hs as ([a c'] & Hin & Hs). simpl in Hs.
    apply in_map_iff in Hs as (s0 & <- & Hs0).
    destruct (IH _ Hin (Hcs _ Hin) s0 Hs0) as (sub & Hsub & Hcls & Hval).
    exists sub. split; [|auto]. simpl.
    rewrite (getattr_module_child _ _ _ _ _ _ _ Hnd Hin). exact Hsub.
Qed.

Lemma named_parameters_sites (m : nn.Module) :
  nn.wf m = true ->
  forall pre,
    Forall (fun a => nn.atom_ok a = true) pre ->
    nn.named_parameters (PyStr.join_dot pre) m
    = map (fun s => (PyStr.join_dot (pre ++ site_path s ++ [site_leaf s]),
                     site_value s))
          (sites m).
Proof.
  induction m as [c t ps bs cs IH] using Module_ind'. intros Hwf pre Hpre.
  apply wf_mk in Hwf as (Hok & _ & Hcs). simpl.
  rewrite map_app, map_map. apply (f_equal2 (@app _)).
  - apply map_ext. intros [k v]. simpl. rewrite (qualify_join _ _ Hpre). reflexivity.
  - rewrite flat_map_concat_map, (flat_map_concat_map _ cs), concat_map, map_map.
    f_equal. apply map_ext_Forall.
    rewrite List.Forall_forall in Hok, Hcs, IH |- *. intros [a c'] Hin. simpl.
    assert (Ha : nn.atom_ok a = true).
    { apply Hok, in_or_app. right. apply in_or_app. right.
      apply (In_fst _ _ _ Hin). }
    rewrite (qualify_join _ _ Hpre), (IH _ Hin (Hcs _ Hin)), map_map.
    + apply map_ext. intros s. simpl. rewrite <- app_assoc. reflexivity.
    + apply Forall_app. split; [exact Hpre|]. constructor; [exact Ha|constructor].
Qed.

Lemma named_parameters_root (m : nn.Module) :
  nn.wf m = true ->
  nn.named_parameters "" m = map (fun s => (site_fqn s, site_value s)) (sites m).
Proof.
  intros Hwf. apply (named_parameters_sites m Hwf []). constructor.
Qed.

Lemma takes_empty (slots : list (string * nn.Param)) :
  mapM (nn.takes empty) slots = Ok (map (fun _ => tt) slots).
Proof.
  induction slots as [|slot rest IH]; [reflexivity|].
  cbn [mapM map]. unfold nn.takes at 1. rewrite lookup_empty, IH. reflexivity.
Qed.

Lemma load_state_dict_empty (m : nn.Module) :
  nn.load_state_dict m empty = Ok m.
Proof.
  unfold nn.load_state_dict. rewrite takes_empty, assign_empty. cbn [rbind].
  replace (forallb _ _) with true; [reflexivity|].
  symmetry. apply forallb_forall. intros kv _. unfold nn.fits.
  rewrite lookup_empty. reflexivity.
Qed.

Lemma named_parameters_keys_in_state_dict (m : nn.Module) (k : string) :
  In k (map fst (nn.named_parameters "" m)) -> In k (map fst (nn.state_dict "" m)).
Proof.
  intros H. apply in_map_iff in H as (kv & <- & Hin).
  apply in_map. apply named_parameters_in_state_dict. exact Hin.
Qed.

(** * Further properties of the converter *)

(** ** Paths of attributes: taking apart and putting together *)

Lemma split_dot_nonempty (s : string) : PyStr.split_dot s <> [].
Proof.
  destruct s as [|c r]; simpl; [discriminate|].
  destruct (Ascii.eqb c PyStr.dot); [discriminate|].
  destruct (PyStr.split_dot r); discriminate.
Qed.

Lemma join_dot_split (s : string) : PyStr.join_dot (PyStr.split_dot s) = s.
Proof.
  induction s as [|c r IH]; [reflexivity|]. simpl.
  pose proof (split_dot_nonempty r) as Hne.
  destruct (PyStr.split_dot r) as [|h t] eqn:E; [contradiction|].
  destruct (Ascii.eqb_spec c PyStr.dot) as [->|Hc].
  - rewrite join_dot_cons, IH. reflexivity.
  - destruct t as [|h' t].
    + simpl in IH |- *. rewrite IH. reflexivity.
    + rewrite join_dot_cons in IH |- *. rewrite append_String, IH. reflexivity.
Qed.

Lemma split_dot_between (a s : string) :
  PyStr.split_dot (a ++ String PyStr.dot s)
  = (PyStr.split_dot a ++ PyStr.split_dot s)%list.
Proof.
  induction a as [|c a IH]; [reflexivity|].
  rewrite append_String. simpl. rewrite IH.
  pose proof (split_dot_nonempty a) as Hne.
  destruct (Ascii.eqb c PyStr.dot); [reflexivity|].
  destruct (PyStr.split_dot a); [contradiction|reflexivity].
Qed.

Lemma has_dot_between (a s : string) :
  PyStr.has_dot (a ++ String PyStr.dot s) = true.
Proof.
  induction a as [|c a IH]; [reflexivity|].
  rewrite append_String. simpl. rewrite IH. apply orb_true_r.
Qed.

Lemma fqn_down_nonempty (fqn name : string) :
  fqn <> EmptyString ->
  _fqn_down fqn name = (fqn ++ String PyStr.dot name)%string.
Proof.
  intros H. unfold _fqn_down.
  destruct (String.eqb_spec fqn ""); [contradiction|reflexivity].
Qed.

(** X1: going down by a name without a dot and up again gives the path
    back, whatever the path is, and the name is the last atom. *)
Theorem fqn_down_then_up (fqn name : string) :
  PyStr.has_dot name = false ->
  _fqn_up (_fqn_down fqn name) = fqn
  /\ _fqn_last (_fqn_down fqn name) = name.
Proof.
  intros Hname. destruct (String.eqb_spec fqn "") as [->|Hne].
  - unfold _fqn_up, _fqn_last, _fqn_down. simpl String.eqb. cbv iota.
    rewrite (split_dot_atom _ Hname). split; reflexivity.
  - rewrite (fqn_down_nonempty _ _ Hne). unfold _fqn_up, _fqn_last.
    rewrite split_dot_between, (split_dot_atom _ Hname).
    rewrite removelast_last, last_last, length_app, join_dot_split. simpl.
    pose proof (split_dot_nonempty fqn) as Hs.
    destruct (PyStr.split_dot fqn) as [|h t]; [contradiction|]. simpl.
    replace (Nat.eqb (List.length t + 1) 0) with false
      by (symmetry; apply Nat.eqb_neq; lia).
    split; reflexivity.
Qed.

Lemma fqn_down_then_up_witness :
  _fqn_up (_fqn_down "layers.0.attention.wq" "weight") = "layers.0.attention.wq"
  /\ _fqn_last (_fqn_down "layers.0.attention.wq" "weight") = "weight".
Proof. apply (fqn_down_then_up "layers.0.attention.wq" "weight"). reflexivity. Defined.

(** X2: a path is put together again from its parent and its last atom
    when it has no dot or its parent is not the empty path; the path
    [.a], whose parent is the empty path, comes back as [a]. *)
Theorem fqn_up_last_then_down :
  (forall fqn,
      PyStr.has_dot fqn = false \/ _fqn_up fqn <> "" ->
      _fqn_down (_fqn_up fqn) (_fqn_last fqn) = fqn)
  /\ _fqn_down (_fqn_up ".a") (_fqn_last ".a") = "a".
Proof.
  split; [|reflexivity].
  intros fqn H. unfold _fqn_up, _fqn_last in *.
  pose proof (join_dot_split fqn) as Hjoin.
  destruct (exists_last (split_dot_nonempty fqn)) as (l & x & Hl).
  rewrite Hl in *. rewrite removelast_last, last_last, length_app in *. simpl in *.
  destruct l as [|h t].
  - simpl in *. subst x. reflexivity.
  - replace (Nat.eqb (List.length (h :: t) + 1) 1) with false in *
      by (symmetry; apply Nat.eqb_neq; simpl; lia).
    rewrite join_dot_snoc in Hjoin by discriminate.
    destruct H as [H|H].
    + rewrite <- Hjoin, has_dot_between in H. discriminate.
    + rewrite (fqn_down_nonempty _ _ H). exact Hjoin.
Qed.

Lemma fqn_up_last_then_down_witness :
  _fqn_down (_fqn_up "norm.weight") (_fqn_last "norm.weight") = "norm.weight".
Proof.
  apply (proj1 fqn_up_last_then_down "norm.weight"). right. discriminate.
Defined.

Lemma getattr_each_app (a b : list string) (curr : nn.attr) :
  getattr_each (a ++ b) curr
  = do mid <- getattr_each a curr; getattr_each b mid.
Proof.
  revert curr. induction a as [|x a IH]; intros curr; simpl.
  - destruct (getattr_each b curr); reflexivity.
  - destruct (nn.getattr curr x); simpl; [apply IH|reflexivity].
Qed.

Lemma fqn_lookup_site (m : nn.Module) (s : site) :
  nn.wf m = true -> In s (sites m) ->
  _fqn_lookup (site_fqn s) m = Ok (nn.attr_parameter (site_value s)).
Proof.
  intros Hwf Hs.
  destruct (sites_atoms_ok m Hwf s Hs) as [Hp Hl].
  destruct (getattr_each_site m Hwf s Hs) as (sub & Hsub & _ & Hval).
  unfold site_fqn. rewrite fqn_lookup_join.
  - rewrite getattr_each_app, Hsub. simpl.
    unfold nn.getattr_module. rewrite Hval. reflexivity.
  - apply Forall_app. split; [exact Hp|]. constructor; [exact Hl|constructor].
Qed.

(** X3: on a module tree with torch's naming invariant [_fqn_lookup]
    resolves every name that [named_parameters] yields to the parameter
    yielded with it, and the empty path to the module itself. *)
Theorem fqn_lookup_finds_named_parameters (m : nn.Module) :
  nn.wf m = true ->
  (forall fqn p,
      In (fqn, p) (nn.named_parameters "" m) ->
      _fqn_lookup fqn m = Ok (nn.attr_parameter p))
  /\ _fqn_lookup "" m = Ok (nn.attr_module m).
Proof.
  intros Hwf. split; [|reflexivity].
  intros fqn p Hin. rewrite (named_parameters_root m Hwf) in Hin.
  apply in_map_iff in Hin as (s & [= <- <-] & Hs).
  apply (fqn_lookup_site m s Hwf Hs).
Qed.

Lemma fqn_lookup_witness :
  _fqn_lookup "norm.weight" (model.root small_model)
  = Ok (nn.attr_parameter (model.fresh [32])).
Proof.
  apply (proj1 (fqn_lookup_finds_named_parameters (model.root small_model) eq_refl)).
  vm_compute. repeat (first [left; reflexivity | right]).
Defined.

(** ** Metadata extractor *)

Lemma find_snoc {A} (f : A -> bool) (l : list A) (x : A) :
  find f (l ++ [x])
  = match find f l with
    | Some y => Some y
    | None => if f x then Some x else None
    end.
Proof.
  induction l as [|y r IH]; simpl; [reflexivity|].
  destruct (f y); [reflexivity|exact IH].
Qed.

Lemma get_metadata_loop_lookup (fs : list ReaderField) :
  forall acc md,
    get_metadata_loop fs acc = Ok md ->
    forall key,
      match last_field key fs with
      | Some f => exists v, field_value f = Ok v /\ md !! key = Some v
      | None => md !! key = acc !! key
      end.
Proof.
  unfold last_field.
  induction fs as [|f rest IH]; simpl; intros acc md H key.
  { injection H as <-. reflexivity. }
  destruct (field_value f) as [v|] eqn:Ev; simpl in H; [|discriminate].
  specialize (IH _ _ H key). rewrite find_snoc.
  destruct (find _ (rev rest)) as [f'|]; [exact IH|].
  rewrite IH. destruct (String.eqb_spec key (field_name f)) as [->|Hne].
  - exists v. split; [exact Ev|apply lookup_insert_eq].
  - apply lookup_insert_ne. congruence.
Qed.

Lemma get_metadata_loop_is_ok (fs : list ReaderField) :
  forall acc,
    is_ok (get_metadata_loop fs acc)
    = forallb (fun f => is_ok (field_value f)) fs.
Proof.
  induction fs as [|f rest IH]; simpl; intros acc; [reflexivity|].
  destruct (field_value f); simpl; [apply IH|reflexivity].
Qed.

(** X4: the extractor succeeds exactly when every field has a value;
    the metadata then maps a key to the value of the last field of that
    name, and a key that names no field is absent. *)
Theorem metadata_holds_last_field_values (reader : GGUFReader) :
  is_ok (_get_metadata reader)
  = forallb (fun f => is_ok (field_value f)) (fields reader)
  /\ forall metadata,
      _get_metadata reader = Ok metadata ->
      forall key,
        match last_field key (fields reader) with
        | Some f => exists v, field_value f = Ok v /\ metadata !! key = Some v
        | None => metadata !! key = None
        end.
Proof.
  split; [apply get_metadata_loop_is_ok|].
  intros metadata H key.
  pose proof (get_metadata_loop_lookup _ _ _ H key) as Hk.
  destruct (last_field key (fields reader)); [exact Hk|].
  rewrite Hk. apply lookup_empty.
Qed.

Lemma metadata_witness :
  match last_field "n" [number_field "n" UINT32 (SInt 1);
                        number_field "n" UINT32 (SInt 2)] with
  | Some f =>
      exists v, field_value f = Ok v
                /\ <["n" := VScalar (SInt 2)]> (∅ : gmap string value) !! "n" = Some v
  | None => <["n" := VScalar (SInt 2)]> (∅ : gmap string value) !! "n" = None
  end.
Proof.
  apply (proj2 (metadata_holds_last_field_values
                  {| fields := [number_field "n" UINT32 (SInt 1);
                                number_field "n" UINT32 (SInt 2)];
                     tensors := [] |})).
  vm_compute. reflexivity.
Defined.

Lemma mapM_Forall2 {A B} (f : A -> result B) (l : list A) (l' : list B) :
  mapM f l = Ok l' -> Forall2 (fun x y => f x = Ok y) l l'.
Proof.
  revert l'. induction l as [|x r IH]; simpl; intros l' H.
  - injection H as <-. constructor.
  - destruct (f x) as [y|] eqn:Ex; simpl in H; [|discriminate].
    destruct (mapM f r) as [ys|]; simpl in H; [|discriminate].
    injection H as <-. constructor; auto.
Qed.

(** X5: a field's value is a list of strings only for a field declared as
    an array whose last type is STRING; the list then has one string per
    index in [data], the bytes of the part at that index. *)
Theorem string_array_one_string_per_index (field : ReaderField) (l : list string) :
  field_value field = Ok (VStrList l) ->
  firstn 1 (types field) = [ARRAY]
  /\ py_index (types field) (-1) = Ok STRING
  /\ List.length l = List.length (data field)
  /\ Forall2 (fun idx s => exists part,
                  py_index (parts field) idx = Ok part /\ tobytes part = s)
             (data field) l.
Proof.
  unfold field_value. intros H.
  assert (Harr : firstn 1 (types field) = [ARRAY]
                 /\ exists itype,
                     py_index (types field) (-1) = Ok itype
                     /\ (if GGUFValueType_eqb itype STRING
                         then do val <- mapM (fun idx =>
                                      do part <- py_index (parts field) idx;
                                      decode_utf8 (tobytes part)) (data field);
                              Ok (VStrList val)
                         else do val <- mapM (fun idx =>
                                      do part <- py_index (parts field) idx;
                                      Ok (tolist part)) (data field);
                              Ok (VList (concat val)))
                        = Ok (VStrList l)).
  { destruct (firstn 1 (types field)) as [|t [|t' r]] eqn:Et.
    - bind_inv H; discriminate H.
    - destruct t; try (bind_inv H; discriminate H).
      split; [reflexivity|].
      destruct (py_index (types field) (-1)) as [itype|]; simpl in H; [|discriminate].
      eauto.
    - destruct t; bind_inv H; discriminate H. }
  destruct Harr as (Hfirst & itype & Hitype & Hval). clear H.
  split; [exact Hfirst|].
  destruct itype; simpl in Hval;
    try (exfalso; destruct (mapM _ (data field)); simpl in Hval; discriminate Hval).
  split; [exact Hitype|].
  destruct (mapM _ (data field)) as [val|] eqn:Em; simpl in Hval; [|discriminate].
  injection Hval as ->. apply mapM_Forall2 in Em.
  split; [symmetry; eapply Forall2_length; exact Em|].
  eapply Forall2_impl; [exact Em|].
  intros idx s' Hs. simpl in Hs.
  destruct (py_index (parts field) idx) as [part|]; simpl in Hs; [|discriminate].
  exists part. split; [reflexivity|].
  unfold decode_utf8 in Hs. destruct (utf8_scan _ _ _ _); congruence.
Qed.

Lemma string_array_witness :
  List.length ["<s>"; "a"; "b"]
  = List.length (data (strings_field "tokenizer.ggml.tokens" ["<s>"; "a"; "b"])).
Proof.
  apply (string_array_one_string_per_index
           (strings_field "tokenizer.ggml.tokens" ["<s>"; "a"; "b"])).
  reflexivity.
Defined.

(** ** Architecture mapper *)

Lemma has_len_py_len (v : value) : is_ok (py_len v) = has_len v.
Proof. destruct v; reflexivity. Qed.

Ltac lookup_head H :=
  match type of H with
  | context [rbind (match ?m !! ?k with Some _ => _ | None => _ end) _] =>
      let E := fresh "E" in
      destruct (m !! k) eqn:E; simpl in H
  end.

(** X6: the mapper succeeds exactly when the architecture is the str
    "llama", the file type equals 0 or 1, the token list has a length and
    every required key is present; the rope keys play no part. *)
Theorem build_model_args_succeeds_iff (metadata : gmap string value) :
  is_ok (_build_model_args metadata) = true
  <-> metadata !! "general.architecture" = Some (VStr "llama")
      /\ (exists ft, metadata !! "general.file_type" = Some ft
                     /\ py_eq_bit ft false || py_eq_bit ft true = true)
      /\ (exists tokens, metadata !! "tokenizer.ggml.tokens" = Some tokens
                         /\ has_len tokens = true)
      /\ Forall (fun key => is_Some (metadata !! key)) required_keys.
Proof.
  unfold _build_model_args, getitem, required_keys. split.
  - intros H.
    destruct (metadata !! "general.architecture") as [a|] eqn:Ea;
      simpl in H; [|discriminate].
    destruct (py_eq_str a "llama") eqn:Earch; simpl in H; [|discriminate].
    apply py_eq_str_true in Earch. subst a.
    destruct (metadata !! "general.file_type") as [ft|] eqn:Eft;
      simpl in H; [|discriminate].
    destruct (py_eq_bit ft false || py_eq_bit ft true) eqn:Ebit;
      simpl in H; [|discriminate].
    cbv [String.append] in H.
    do 4 (lookup_head H; [|discriminate]).
    destruct (py_len _) eqn:Elen; simpl in H; [|discriminate].
    do 3 (lookup_head H; [|discriminate]).
    split; [reflexivity|]. split; [eauto|].
    split; [eexists; split; [reflexivity|]|].
    + rewrite <- has_len_py_len, Elen. reflexivity.
    + repeat (apply List.Forall_cons; [eexists; eassumption|]). apply List.Forall_nil.
  - intros (Ha & (ft & Hft & Hbit) & (tokens & Htok & Hlen) & Hall).
    repeat match goal with
           | H : Forall _ (_ :: _) |- _ =>
               let Hx := fresh "Hk" in
               apply Forall_cons in H; destruct H as [[? Hx] H]
           end.
    rewrite Ha. simpl. rewrite Hft. simpl. rewrite Hbit. simpl.
    cbv [String.append].
    repeat match goal with
           | Hx : metadata !! ?k = Some _ |- context [metadata !! ?k] =>
               rewrite Hx; simpl
           end.
    match goal with
    | |- context [py_len ?t] => replace t with tokens by congruence
    end.
    destruct tokens; [discriminate|reflexivity..].
Qed.

Lemma build_model_args_succeeds_witness :
  is_ok (_build_model_args (metadata_of example_metadata)) = true.
Proof.
  apply (proj2 (build_model_args_succeeds_iff (metadata_of example_metadata))).
  split; [reflexivity|].
  split; [exists (VScalar (SInt 0)); split; reflexivity|].
  split; [exists (VStrList (md_tokens example_metadata)); split; reflexivity|].
  repeat (apply List.Forall_cons; [eexists; reflexivity|]). apply List.Forall_nil.
Defined.

(** X7: every failure of the mapper is one of four: a KeyError, which
    names the first required key that is absent; the architecture
    assertion, on an architecture that is not the str "llama"; the file
    type assertion; or a TypeError, on a token entry that has no length. *)
Theorem build_model_args_failures (metadata : gmap string value) (e : exn) :
  _build_model_args metadata = Raise e ->
  match e with
  | KeyError key => first_missing metadata = Some key
  | AssertionError site =>
      match site with
      | assert_arch =>
          exists a, metadata !! "general.architecture" = Some a /\ a <> VStr "llama"
      | assert_file_type =>
          metadata !! "general.architecture" = Some (VStr "llama")
          /\ exists ft, metadata !! "general.file_type" = Some ft
                        /\ py_eq_bit ft false = false /\ py_eq_bit ft true = false
      | assert_arch_again => False
      end
  | TypeError =>
      exists x, metadata !! "tokenizer.ggml.tokens" = Some (VScalar x)
  | _ => False
  end.
Proof.
  unfold _build_model_args, getitem, first_missing, required_keys. intros H.
  destruct (metadata !! "general.architecture") as [a|] eqn:Ea; simpl in H;
    [|injection H as <-; simpl; rewrite Ea; reflexivity].
  destruct (py_eq_str a "llama") eqn:Earch; simpl in H.
  2:{ injection H as <-. exists a. split; [reflexivity|].
      intros ->. vm_compute in Earch. discriminate Earch. }
  apply py_eq_str_true in Earch. subst a.
  destruct (metadata !! "general.file_type") as [ft|] eqn:Eft; simpl in H;
    [|injection H as <-; simpl; rewrite Ea, Eft; reflexivity].
  destruct (py_eq_bit ft false || py_eq_bit ft true) eqn:Ebit; simpl in H.
  2:{ injection H as <-. apply orb_false_iff in Ebit. eauto. }
  cbv [String.append] in H.
  do 4 (lookup_head H;
        [|injection H as <-; simpl;
          repeat match goal with
                 | Hx : metadata !! ?k = _ |- context [metadata !! ?k] => rewrite Hx
                 end; reflexivity]).
  destruct (py_len _) eqn:Elen; simpl in H.
  2:{ injection H as <-.
      match type of Elen with py_len ?t = _ => destruct t; try discriminate end.
      injection Elen as <-. eauto. }
  do 3 (lookup_head H;
        [|injection H as <-; simpl;
          repeat match goal with
                 | Hx : metadata !! ?k = _ |- context [metadata !! ?k] => rewrite Hx
                 end; reflexivity]).
  discriminate.
Qed.

Lemma build_model_args_failures_witness :
  first_missing (<["general.file_type" := VScalar (SInt 0)]>
                   (<["general.architecture" := VStr "llama"]> ∅))
  = Some "llama.embedding_length".
Proof.
  apply (build_model_args_failures
           (<["general.file_type" := VScalar (SInt 0)]>
              (<["general.architecture" := VStr "llama"]> ∅))
           (KeyError "llama.embedding_length")).
  vm_compute. reflexivity.
Defined.

(** ** Name map of the tensors *)

Lemma weight_map_fold (ts : list ReaderTensor) :
  forall (acc : gmap string ReaderTensor) key,
    fold_left
      (fun weight_map tensor =>
         <[_convert_gguf_tensor_name_to_llama_nn (name tensor) := tensor]> weight_map)
      ts acc !! key
    = match last_tensor key ts with
      | Some t => Some t
      | None => acc !! key
      end.
Proof.
  unfold last_tensor.
  induction ts as [|t rest IH]; simpl; intros acc key; [reflexivity|].
  rewrite IH, find_snoc.
  destruct (find _ (rev rest)); [reflexivity|].
  destruct (String.eqb_spec key (_convert_gguf_tensor_name_to_llama_nn (name t)))
    as [->|Hne].
  - apply lookup_insert_eq.
  - apply lookup_insert_ne. congruence.
Qed.

Lemma find_In_holds {A} (f : A -> bool) (l : list A) (x : A) :
  find f l = Some x -> In x l /\ f x = true.
Proof.
  induction l as [|y r IH]; simpl; [discriminate|].
  destruct (f y) eqn:E.
  - intros [= ->]. auto.
  - intros H. destruct (IH H). auto.
Qed.

(** X8: the name map holds, under a model name, the last tensor whose
    translated name it is: every entry is a tensor of the file under its
    translated name, every tensor's translated name has an entry, and of
    two tensors with the same translated name the later one is kept. *)
Theorem weight_map_keeps_last_tensor (gguf_weights : GGUFWeights) :
  (forall key,
      build_weight_map gguf_weights !! key
      = last_tensor key (weights_tensors gguf_weights))
  /\ (forall key t,
         build_weight_map gguf_weights !! key = Some t ->
         In t (weights_tensors gguf_weights)
         /\ _convert_gguf_tensor_name_to_llama_nn (name t) = key)
  /\ (forall t,
         In t (weights_tensors gguf_weights) ->
         is_Some (build_weight_map gguf_weights
                    !! _convert_gguf_tensor_name_to_llama_nn (name t)))
  /\ (forall ts t,
         weights_tensors gguf_weights = (ts ++ [t])%list ->
         build_weight_map gguf_weights
           !! _convert_gguf_tensor_name_to_llama_nn (name t) = Some t).
Proof.
  assert (Hlook : forall key,
             build_weight_map gguf_weights !! key
             = last_tensor key (weights_tensors gguf_weights)).
  { intros key. unfold build_weight_map. rewrite weight_map_fold.
    destruct (last_tensor _ _); [reflexivity|apply lookup_empty]. }
  split; [exact Hlook|]. split; [|split].
  - intros key t. rewrite Hlook. unfold last_tensor. intros H.
    apply find_In_holds in H. destruct H as [Hin Heq].
    split; [apply in_rev, Hin|]. apply String.eqb_eq in Heq. congruence.
  - intros t Hin. rewrite Hlook. unfold last_tensor.
    destruct (find _ _) as [t'|] eqn:E; [eauto|].
    exfalso. apply in_rev in Hin.
    pose proof (find_none _ _ E t Hin) as Hn. simpl in Hn.
    rewrite String.eqb_refl in Hn. discriminate.
  - intros ts t Hts. rewrite Hlook, Hts. unfold last_tensor.
    rewrite rev_app_distr. simpl. rewrite String.eqb_refl. reflexivity.
Qed.

Lemma weight_map_witness :
  In {| name := "blk.0.attn_q.weight"; tensor_type := F32; shape := [2];
        tensor_data := {| np_shape := [2]; np_item := fun _ => 7 |} |}
     [ {| name := "layers.0.attention.wq.weight"; tensor_type := F32; shape := [2];
          tensor_data := {| np_shape := [2]; np_item := fun _ => 1 |} |};
       {| name := "blk.0.attn_q.weight"; tensor_type := F32; shape := [2];
          tensor_data := {| np_shape := [2]; np_item := fun _ => 7 |} |} ]
  /\ _convert_gguf_tensor_name_to_llama_nn "blk.0.attn_q.weight"
     = "layers.0.attention.wq.weight".
Proof.
  apply (proj1 (proj2 (weight_map_keeps_last_tensor
           {| weights_tensors :=
                [ {| name := "layers.0.attention.wq.weight"; tensor_type := F32;
                     shape := [2];
                     tensor_data := {| np_shape := [2]; np_item := fun _ => 1 |} |};
                  {| name := "blk.0.attn_q.weight"; tensor_type := F32; shape := [2];
                     tensor_data := {| np_shape := [2]; np_item := fun _ => 7 |} |} ]
           |})) "layers.0.attention.wq.weight").
  vm_compute. reflexivity.
Defined.

(** ** File loader *)

(** X9: a successful load opened the reader of a regular file once and did
    nothing else: the arguments are built from that reader's metadata and
    the weights are its tensors, all of them and in the file's order.
    Whatever the outcome, the only event is the opening of the reader. *)
Theorem load_gguf_file_returns_reader_content (fs : FileSystem) (gguf_file : string) :
  (forall out args weights,
      load_gguf_file fs gguf_file = (out, Ok (args, weights)) ->
      exists reader metadata,
        fs gguf_file = Some (regular_file (Some reader))
        /\ _get_metadata reader = Ok metadata
        /\ _build_model_args metadata = Ok args
        /\ weights_tensors weights = tensors reader
        /\ out = [open_reader gguf_file])
  /\ (forall ev, In ev (fst (load_gguf_file fs gguf_file)) ->
                 ev = open_reader gguf_file).
Proof.
  unfold load_gguf_file, open_GGUFReader, is_file.
  destruct (fs gguf_file) as [[[reader|]|]|] eqn:Efs; simpl;
    try (split; [discriminate|intros ev [<-|[]]; reflexivity]);
    try (split; [discriminate|intros ev []]).
  destruct (_get_metadata reader) as [metadata|] eqn:Em; simpl;
    [|split; [discriminate|intros ev [<-|[]]; reflexivity]].
  destruct (_build_model_args metadata) as [args'|] eqn:Ea; simpl;
    [|split; [discriminate|intros ev [<-|[]]; reflexivity]].
  split; [|intros ev [<-|[]]; reflexivity].
  intros out args weights [= <- <- <-]. exists reader, metadata. auto.
Qed.

Lemma load_gguf_file_witness :
  exists reader metadata,
    small_fs "llama" 1 "model.gguf" = Some (regular_file (Some reader))
    /\ _get_metadata reader = Ok metadata
    /\ _build_model_args metadata
       = Ok {| arch := VStr "llama";
               embedding_length := VScalar (SInt 32);
               block_count := VScalar (SInt 1);
               feed_forward_length := VScalar (SInt 64);
               vocab_size := VScalar (SInt 3);
               attention :=
                 {| head_count := VScalar (SInt 1);
                    head_count_kv := VScalar (SInt 1);
                    layer_norm_rms_epsilon :=
                      VScalar (SFloat 0x1.4f8b588e368f1p-17%float) |};
               rope := {| freq_base := None;
                          dimension_count := Some (VScalar (SInt 32)) |} |}
    /\ weights_tensors {| weights_tensors := small_tensors |} = tensors reader
    /\ [open_reader "model.gguf"] = [open_reader "model.gguf"].
Proof.
  apply (proj1 (load_gguf_file_returns_reader_content (small_fs "llama" 1) "model.gguf")).
  vm_compute. reflexivity.
Defined.

(** ** Model construction and the driver *)

Lemma all_eval_eval (m : nn.Module) : all_eval (nn.eval m) = true.
Proof.
  induction m as [c t ps bs cs IH] using Module_ind'. simpl.
  rewrite forallb_forall. intros nc Hnc.
  apply in_map_iff in Hnc as (nc0 & <- & Hin). simpl.
  rewrite List.Forall_forall in IH. apply (IH nc0 Hin).
Qed.

Lemma create_pt_model_inv (args : GGUFModelArgs) (out : list event)
      (pt_model : model.Transformer) :
  _create_pt_model args = (out, Ok pt_model) ->
  exists config,
    llama_model_args args = Ok config
    /\ out = [instantiate config]
    /\ pt_model = instantiated config.
Proof.
  unfold _create_pt_model.
  destruct (llama_model_args args) as [config|]; simpl; [|discriminate].
  intros [= <- <-]. exists config. auto.
Qed.


(** ** Tensor-name translator: layer indices *)

Lemma prefix_before_foreign (c : ascii) (Y : string) :
  forall X o,
    occurs c o = false ->
    String.prefix o (X ++ String c Y) = String.prefix o X.
Proof.
  induction X as [|b X' IH]; intros [|a o'] Ho; try reflexivity.
  - simpl in *. apply orb_false_iff in Ho as [Hc _].
    destruct (ascii_dec a c) as [->|]; [|reflexivity].
    rewrite Ascii.eqb_refl in Hc. discriminate.
  - simpl in *. apply orb_false_iff in Ho as [_ Ho'].
    destruct (ascii_dec a b); [apply IH; exact Ho'|reflexivity].
Qed.

Lemma prefix_length (o : string) :
  forall X, String.prefix o X = true -> (String.length o <= String.length X)%nat.
Proof.
  induction o as [|a o' IH]; intros [|b X'] H; simpl in *; try lia; try discriminate.
  destruct (ascii_dec a b); [|discriminate].
  specialize (IH _ H). lia.
Qed.

Section replace_around.

Variables (old new d R : string).
Hypothesis old_nonempty : old <> "".
Hypothesis d_foreign :
  forall c, In c (list_ascii_of_string d) -> occurs c old = false.

Lemma replace_from_over_foreign :
  PyStr.replace_from old new 0 (d ++ R) = d ++ PyStr.replace_from old new 0 R.
Proof.
  induction d as [|c d' IH]; [reflexivity|].
  assert (Hc : occurs c old = false) by (apply d_foreign; left; reflexivity).
  destruct old as [|a o'] eqn:Eold; [contradiction|].
  change (String c d' ++ R) with (String c (d' ++ R)).
  cbn [PyStr.replace_from String.prefix].
  destruct (ascii_dec a c) as [->|].
  - simpl in Hc. rewrite Ascii.eqb_refl in Hc. discriminate.
  - rewrite append_String. f_equal. apply IH.
    intros c' Hc'. apply d_foreign. right. exact Hc'.
Qed.

Hypothesis d_nonempty : d <> "".

Lemma replace_from_split :
  forall P k,
    (k <= String.length P)%nat ->
    PyStr.replace_from old new k (P ++ d ++ R)
    = PyStr.replace_from old new k P ++ d ++ PyStr.replace_from old new 0 R.
Proof.
  induction P as [|b P' IH]; intros k Hk.
  { simpl in Hk. assert (k = 0%nat) as -> by lia.
    apply replace_from_over_foreign. }
  change (String b P' ++ d ++ R) with (String b (P' ++ d ++ R)).
  destruct k as [|k'].
  - cbn [PyStr.replace_from].
    change (String b (P' ++ d ++ R)) with (String b P' ++ d ++ R).
    destruct d as [|c d'] eqn:Ed; [contradiction|].
    change (String c d' ++ R) with (String c (d' ++ R)).
    rewrite prefix_before_foreign by (apply d_foreign; left; reflexivity).
    change (String c (d' ++ R)) with (String c d' ++ R).
    change (String b P' ++ String c d' ++ R) with (String b (P' ++ String c d' ++ R)).
    destruct (String.prefix old (String b P')) eqn:Ep.
    + apply prefix_length in Ep. simpl in Ep.
      rewrite IH by lia. symmetry. apply append_assoc.
    + rewrite IH by lia. reflexivity.
  - cbn [PyStr.replace_from]. simpl in Hk. apply IH. lia.
Qed.

Lemma replace_split (P : string) :
  PyStr.replace old new (P ++ d ++ R)
  = PyStr.replace old new P ++ d ++ PyStr.replace old new R.
Proof.
  pose proof (replace_from_split P 0 (Nat.le_0_l _)) as H.
  unfold PyStr.replace. destruct old; [contradiction|exact H].
Qed.

End replace_around.

Lemma fold_replace_split (d : string) (table : list (string * string)) :
  d <> "" ->
  (forall old new, In (old, new) table ->
     old <> "" /\ forall c, In c (list_ascii_of_string d) -> occurs c old = false) ->
  forall P R,
    fold_left (fun result '(old, new) => PyStr.replace old new result) table
              (P ++ d ++ R)
    = fold_left (fun result '(old, new) => PyStr.replace old new result) table P
      ++ d
      ++ fold_left (fun result '(old, new) => PyStr.replace old new result) table R.
Proof.
  intros Hd. induction table as [|[old new] rest IH]; intros Htable P R;
    [reflexivity|].
  destruct (Htable old new (or_introl eq_refl)) as [Hold Hforeign].
  simpl. rewrite (replace_split old new d R Hold Hforeign Hd).
  apply IH. intros old' new' Hin. apply (Htable old' new'). right. exact Hin.
Qed.

Lemma digit_in_no_pattern (c : ascii) :
  is_digit c = true ->
  forallb (fun '(old, _) => negb (occurs c old)) _name_replacements = true.
Proof.
  destruct c as [[] [] [] [] [] [] [] []]; intros H;
    first [discriminate H | reflexivity].
Qed.

Lemma digits_in_no_pattern (d : string) :
  digits d = true ->
  forall old new, In (old, new) _name_replacements ->
    old <> "" /\ forall c, In c (list_ascii_of_string d) -> occurs c old = false.
Proof.
  unfold digits. intros Hd old new Hin. split.
  - intros ->. simpl in Hin.
    repeat (destruct Hin as [Hin|Hin]; [discriminate Hin|]). contradiction.
  - intros c Hc. rewrite forallb_forall in Hd.
    pose proof (digit_in_no_pattern c (Hd c Hc)) as Hno.
    rewrite forallb_forall in Hno. specialize (Hno (old, new) Hin). simpl in Hno.
    destruct (occurs c old); [discriminate|reflexivity].
Qed.

(** X15: a layer index cuts a tensor name in two: around a non-empty run
    of decimal digits the translator renames the part before and the part
    after independently and keeps the digits.  So for every layer index
    the per-layer names of a "llama" file become the names of the model's
    parameters in that layer. *)
Theorem translator_keeps_layer_index (d : string) :
  d <> "" ->
  digits d = true ->
  (forall P R,
      _convert_gguf_tensor_name_to_llama_nn (P ++ d ++ R)
      = _convert_gguf_tensor_name_to_llama_nn P
        ++ d ++ _convert_gguf_tensor_name_to_llama_nn R)
  /\ Forall (fun '(gguf_name, nn_name) =>
               _convert_gguf_tensor_name_to_llama_nn ("blk." ++ d ++ gguf_name)
               = "layers." ++ d ++ nn_name)
            per_layer_names.
Proof.
  intros Hd Hdigits.
  assert (Hsplit : forall P R,
             _convert_gguf_tensor_name_to_llama_nn (P ++ d ++ R)
             = _convert_gguf_tensor_name_to_llama_nn P
               ++ d ++ _convert_gguf_tensor_name_to_llama_nn R).
  { intros P R. unfold _convert_gguf_tensor_name_to_llama_nn.
    apply fold_replace_split; [exact Hd|].
    apply digits_in_no_pattern. exact Hdigits. }
  split; [exact Hsplit|].
  unfold per_layer_names.
  repeat (apply List.Forall_cons; [rewrite Hsplit; reflexivity|]).
  apply List.Forall_nil.
Qed.

Lemma translator_keeps_layer_index_witness :
  _convert_gguf_tensor_name_to_llama_nn ("blk." ++ "31" ++ ".ffn_gate.weight")
  = _convert_gguf_tensor_name_to_llama_nn "blk."
    ++ "31" ++ _convert_gguf_tensor_name_to_llama_nn ".ffn_gate.weight".
Proof.
  apply (proj1 (translator_keeps_layer_index "31" ltac:(discriminate) eq_refl)).
Defined.

(** X16: a name in which no source string of the table occurs is returned
    as it is; so are the names of the model's parameters outside the
    layers, which lets a file that already uses them load. *)
Theorem translator_leaves_other_names (s : string) :
  collision_free s = true ->
  _convert_gguf_tensor_name_to_llama_nn s = s.
Proof.
  intros H. unfold _convert_gguf_tensor_name_to_llama_nn.
  apply fold_replace_absent. exact H.
Qed.

Lemma translator_leaves_other_names_witness :
  _convert_gguf_tensor_name_to_llama_nn "output.weight" = "output.weight".
Proof. apply translator_leaves_other_names. reflexivity. Defined.

(** ** Looking up a path, step by step *)

(** X17: looking up the path that [_fqn_down] builds is looking up the
    parent path and then taking the attribute: the two helpers agree for
    every dot-free attribute name, the empty parent path included, unless
    both the path and the name are empty (the lookup then returns the
    module itself). *)
Theorem fqn_lookup_down_is_getattr (fqn name : string) (module : nn.Module) :
  PyStr.has_dot name = false ->
  (fqn = "" -> name <> "") ->
  _fqn_lookup (_fqn_down fqn name) module
  = do parent <- _fqn_lookup fqn module; nn.getattr parent name.
Proof.
  intros Hdot Hname. unfold _fqn_lookup at 2.
  destruct (String.eqb_spec fqn "") as [->|Hfqn].
  - unfold _fqn_down. simpl String.eqb. cbv iota. unfold _fqn_lookup.
    destruct (String.eqb_spec name "") as [->|_]; [exfalso; apply Hname; reflexivity|].
    rewrite (split_dot_atom _ Hdot). simpl.
    destruct (nn.getattr_module module name); reflexivity.
  - rewrite (fqn_down_nonempty _ _ Hfqn). unfold _fqn_lookup.
    destruct (String.eqb_spec (fqn ++ String PyStr.dot name) "") as [E|_].
    { destruct fqn; [contradiction|discriminate E]. }
    rewrite split_dot_between, (split_dot_atom _ Hdot), getattr_each_app.
    destruct (getattr_each (PyStr.split_dot fqn) (nn.attr_module module)) as [mid|];
      simpl; [|reflexivity].
    destruct (nn.getattr mid name); reflexivity.
Qed.

Lemma fqn_lookup_down_witness :
  _fqn_lookup (_fqn_down "layers.0.attention.wq" "weight") (model.root small_model)
  = do parent <- _fqn_lookup "layers.0.attention.wq" (model.root small_model);
    nn.getattr parent "weight".
Proof.
  apply fqn_lookup_down_is_getattr; [reflexivity|discriminate].
Defined.

(** * The weight loader, as it is written and as it is read *)

Lemma state_dict_entry_unbound (params : model.ModelArgs) (tensor : ReaderTensor) :
  state_dict_entry params tensor = Raise (NameError "GGMLQuantizationType").
Proof. reflexivity. Qed.

Lemma matches_true (weight_map : gmap string ReaderTensor) (fqns : list string)
      (fqn : string) (tensor : ReaderTensor) :
  In fqn fqns -> weight_map !! fqn = Some tensor -> matches weight_map fqns = true.
Proof.
  intros Hin Hw. apply existsb_exists. exists fqn. rewrite Hw. auto.
Qed.

Lemma matches_false (weight_map : gmap string ReaderTensor) (fqns : list string) :
  matches weight_map fqns = false <-> forall k, In k fqns -> weight_map !! k = None.
Proof.
  unfold matches. split.
  - intros H k Hk. destruct (weight_map !! k) as [tensor|] eqn:E; [|reflexivity].
    assert (existsb (fun fqn => match weight_map !! fqn with
                                | Some _ => true
                                | None => false
                                end) fqns = true); [|congruence].
    apply existsb_exists. exists k. rewrite E. auto.
  - intros H. destruct (existsb _ fqns) eqn:E; [|reflexivity].
    apply existsb_exists in E as (k & Hk & Hm). rewrite (H k Hk) in Hm. discriminate.
Qed.

Lemma state_dict_loop_outcome (params : model.ModelArgs)
      (weight_map : gmap string ReaderTensor) (fqns : list string) :
  forall acc,
    state_dict_loop params weight_map fqns acc
    = if matches weight_map fqns
      then Raise (NameError "GGMLQuantizationType")
      else Ok acc.
Proof.
  induction fqns as [|fqn rest IH]; intros acc; [reflexivity|].
  cbn [state_dict_loop]. unfold matches. cbn [existsb]. fold (matches weight_map rest).
  destruct (weight_map !! fqn) as [tensor|].
  - rewrite state_dict_entry_unbound. reflexivity.
  - apply IH.
Qed.

Lemma state_dict_pass_outcome (pt_model : model.Transformer)
      (weight_map : gmap string ReaderTensor) :
  state_dict_pass pt_model weight_map
  = if matches weight_map (state_names pt_model)
    then Raise (NameError "GGMLQuantizationType")
    else Ok pt_model.
Proof.
  unfold state_dict_pass, state_names. rewrite state_dict_loop_outcome.
  destruct (matches weight_map _); [reflexivity|].
  cbn [rbind]. rewrite load_state_dict_empty. destruct pt_model. reflexivity.
Qed.

Lemma parameter_step_outcome (weight_map : gmap string ReaderTensor) (fqn : string)
      (pt_model : nn.Module) :
  parameter_step weight_map fqn pt_model
  = match weight_map !! fqn with
    | Some _ => ([], Raise (NameError "GGMLQuantizationType"))
    | None => ([], Ok pt_model)
    end.
Proof. unfold parameter_step. destruct (weight_map !! fqn); reflexivity. Qed.

Lemma parameter_loop_outcome (weight_map : gmap string ReaderTensor)
      (fqns : list string) :
  forall m,
    parameter_loop weight_map fqns m
    = if matches weight_map fqns
      then ([], Raise (NameError "GGMLQuantizationType"))
      else ([], Ok m).
Proof.
  induction fqns as [|fqn rest IH]; intros m; [reflexivity|].
  cbn [parameter_loop]. rewrite parameter_step_outcome.
  unfold matches. cbn [existsb]. fold (matches weight_map rest).
  destruct (weight_map !! fqn) as [tensor|]; [reflexivity|].
  cbn [iobind]. rewrite IH. destruct (matches weight_map rest); reflexivity.
Qed.

Lemma parameter_pass_outcome (pt_model : model.Transformer)
      (weight_map : gmap string ReaderTensor) :
  parameter_pass pt_model weight_map
  = if matches weight_map (map fst (nn.named_parameters "" (model.root pt_model)))
    then ([], Raise (NameError "GGMLQuantizationType"))
    else ([], Ok pt_model).
Proof.
  unfold parameter_pass. rewrite parameter_loop_outcome.
  destruct (matches weight_map _); [reflexivity|].
  destruct pt_model. reflexivity.
Qed.

Lemma matches_parameters (pt_model : model.Transformer)
      (weight_map : gmap string ReaderTensor) :
  matches weight_map (state_names pt_model) = false ->
  matches weight_map (map fst (nn.named_parameters "" (model.root pt_model))) = false.
Proof.
  rewrite !matches_false. intros H k Hk.
  apply H, named_parameters_keys_in_state_dict, Hk.
Qed.

Lemma load_weights_reconstructed_outcome (pt_model : model.Transformer)
      (weight_map : gmap string ReaderTensor) :
  _load_weights_under as_reconstructed pt_model weight_map
  = if matches weight_map (state_names pt_model)
    then ([], Raise (NameError "GGMLQuantizationType"))
    else ([], Ok pt_model).
Proof.
  cbn [_load_weights_under]. rewrite state_dict_pass_outcome.
  destruct (matches weight_map (state_names pt_model)) eqn:E; [reflexivity|].
  cbn [lift iobind]. rewrite parameter_pass_outcome, (matches_parameters _ _ E).
  reflexivity.
Qed.

(** C3: the parameter pass never wraps a weight.  For a parameter that has
    a tensor in the name map, whatever its encoding and its parent, the
    pass stops at line 156 with the NameError of [GGMLQuantizationType]
    before it looks the parent up; the loader under the reconstructed
    header stops even earlier, at line 137 of pass 1, and the function as
    written does not run. *)
Theorem quantized_weight_never_wrapped
        (pt_model : model.Transformer) (weight_map : gmap string ReaderTensor)
        (fqn : string) (tensor : ReaderTensor) :
  In fqn (map fst (nn.named_parameters "" (model.root pt_model))) ->
  weight_map !! fqn = Some tensor ->
  parameter_pass pt_model weight_map
  = ([], Raise (NameError "GGMLQuantizationType"))
  /\ _load_weights_under as_reconstructed pt_model weight_map
     = ([], Raise (NameError "GGMLQuantizationType"))
  /\ _load_weights pt_model weight_map = ([], Raise (SyntaxError 132)).
Proof.
  intros Hin Hw. split; [|split; [|reflexivity]].
  - rewrite parameter_pass_outcome, (matches_true _ _ _ _ Hin Hw). reflexivity.
  - rewrite load_weights_reconstructed_outcome.
    rewrite (matches_true _ _ fqn tensor); [reflexivity| |exact Hw].
    apply named_parameters_keys_in_state_dict, Hin.
Qed.

Lemma quantized_weight_never_wrapped_witness :
  parameter_pass small_model
                 (build_weight_map {| weights_tensors := [small_q4_linear] |})
  = ([], Raise (NameError "GGMLQuantizationType"))
  /\ _load_weights_under as_reconstructed small_model
                         (build_weight_map {| weights_tensors := [small_q4_linear] |})
     = ([], Raise (NameError "GGMLQuantizationType"))
  /\ _load_weights small_model
                   (build_weight_map {| weights_tensors := [small_q4_linear] |})
     = ([], Raise (SyntaxError 132)).
Proof.
  apply (quantized_weight_never_wrapped
           small_model (build_weight_map {| weights_tensors := [small_q4_linear] |})
           "layers.0.attention.wq.weight" small_q4_linear).
  - vm_compute. right. left. reflexivity.
  - vm_compute. reflexivity.
Defined.

(** C4: pass 1 never assigns a float tensor.  For an entry of the model's
    state that has an F32 or F16 tensor in the name map, the test of line
    137 raises the NameError of [GGMLQuantizationType] before the tensor
    is reshaped, so the pass and the loader under the reconstructed header
    fail with it; as written the loader does not run. *)
Theorem float_tensor_never_assigned
        (pt_model : model.Transformer) (weight_map : gmap string ReaderTensor)
        (fqn : string) (tensor : ReaderTensor) :
  In fqn (state_names pt_model) ->
  weight_map !! fqn = Some tensor ->
  is_float (tensor_type tensor) = true ->
  state_dict_entry (model.params pt_model) tensor
  = Raise (NameError "GGMLQuantizationType")
  /\ state_dict_pass pt_model weight_map = Raise (NameError "GGMLQuantizationType")
  /\ forall header,
      exists e, _load_weights_under header pt_model weight_map = ([], Raise e)
                /\ (e = SyntaxError 132 \/ e = NameError "GGMLQuantizationType").
Proof.
  intros Hin Hw _. split; [apply state_dict_entry_unbound|]. split.
  - rewrite state_dict_pass_outcome, (matches_true _ _ _ _ Hin Hw). reflexivity.
  - intros [|].
    + eexists. split; [reflexivity|]. left. reflexivity.
    + eexists. split; [|right; reflexivity].
      rewrite load_weights_reconstructed_outcome, (matches_true _ _ _ _ Hin Hw).
      reflexivity.
Qed.

Lemma float_tensor_never_assigned_witness :
  state_dict_pass (instantiated example_config)
                  (build_weight_map {| weights_tensors := [example_embedding] |})
  = Raise (NameError "GGMLQuantizationType").
Proof.
  apply (proj1 (proj2 (float_tensor_never_assigned
           (instantiated example_config)
           (build_weight_map {| weights_tensors := [example_embedding] |})
           "tok_embeddings.weight" example_embedding
           ltac:(vm_compute; left; reflexivity) eq_refl eq_refl))).
Defined.

(** C5: pass 1 never dequantizes the embedding table.  For the Q4_0 tensor
    named [token_embd.weight] the test of line 137 raises the NameError of
    [GGMLQuantizationType] before line 141 is reached; the name [to_float]
    of line 142 is unbound as well.  Whatever the number of rows, the
    failure is a NameError, which is no InvalidInput failure. *)
Theorem embedding_never_dequantized
        (pt_model : model.Transformer) (weight_map : gmap string ReaderTensor)
        (fqn : string) (tensor : ReaderTensor) :
  tensor_type tensor = Q4_0 ->
  name tensor = "token_embd.weight" ->
  In fqn (state_names pt_model) ->
  weight_map !! fqn = Some tensor ->
  state_dict_entry (model.params pt_model) tensor
  = Raise (NameError "GGMLQuantizationType")
  /\ global_name "to_float" = Raise (NameError "to_float")
  /\ state_dict_pass pt_model weight_map = Raise (NameError "GGMLQuantizationType")
  /\ kind_of (NameError "GGMLQuantizationType") = OtherFailure.
Proof.
  intros _ _ Hin Hw. split; [apply state_dict_entry_unbound|].
  split; [reflexivity|]. split; [|reflexivity].
  rewrite state_dict_pass_outcome, (matches_true _ _ _ _ Hin Hw). reflexivity.
Qed.

Lemma embedding_never_dequantized_witness :
  state_dict_entry small_config small_q4_embedding
  = Raise (NameError "GGMLQuantizationType")
  /\ global_name "to_float" = Raise (NameError "to_float")
  /\ state_dict_pass small_model
                     (build_weight_map {| weights_tensors := [small_q4_embedding] |})
     = Raise (NameError "GGMLQuantizationType")
  /\ kind_of (NameError "GGMLQuantizationType") = OtherFailure.
Proof.
  apply (embedding_never_dequantized
           small_model (build_weight_map {| weights_tensors := [small_q4_embedding] |})
           "tok_embeddings.weight" small_q4_embedding eq_refl eq_refl).
  - vm_compute. left. reflexivity.
  - vm_compute. reflexivity.
Defined.

(** C7: names without a partner are not skipped by the function as
    written, which does not run whatever the name map holds.  Under the
    reconstructed header they are: when no entry of the model's state has
    a tensor, the loader returns the model as it was and causes no event;
    but as soon as one entry has a tensor the loader fails, so a parameter
    without a tensor is not left in a loaded model either. *)
Theorem unmatched_names_not_skipped
        (pt_model : model.Transformer) (weight_map : gmap string ReaderTensor) :
  (forall k, In k (state_names pt_model) -> weight_map !! k = None) ->
  _load_weights pt_model weight_map = ([], Raise (SyntaxError 132))
  /\ _load_weights_under as_reconstructed pt_model weight_map = ([], Ok pt_model)
  /\ forall fqn tensor,
      In fqn (state_names pt_model) ->
      _load_weights_under as_reconstructed pt_model (<[fqn := tensor]> weight_map)
      = ([], Raise (NameError "GGMLQuantizationType")).
Proof.
  intros H. split; [reflexivity|]. split.
  - rewrite load_weights_reconstructed_outcome.
    rewrite (proj2 (matches_false _ _) H). reflexivity.
  - intros fqn tensor Hin. rewrite load_weights_reconstructed_outcome.
    rewrite (matches_true _ _ fqn tensor Hin); [reflexivity|].
    apply lookup_insert_eq.
Qed.

Lemma unmatched_names_not_skipped_witness :
  _load_weights small_model
                (build_weight_map {| weights_tensors := [small_rope_freqs] |})
  = ([], Raise (SyntaxError 132)).
Proof.
  apply (unmatched_names_not_skipped
           small_model (build_weight_map {| weights_tensors := [small_rope_freqs] |})).
  intros k Hk. vm_compute in Hk.
  repeat (destruct Hk as [<-|Hk]; [vm_compute; reflexivity|]).
  contradiction.
Defined.

(** X10: the weight loader never changes a model.  Under either header a
    call that returns gives back the model it was given and has caused no
    event, and it returns only under the reconstructed header and only
    when no entry of the model's state has a tensor in the name map. *)
Theorem load_weights_never_loads
        (header : loop_header) (pt_model after : model.Transformer)
        (weight_map : gmap string ReaderTensor) (out : list event) :
  _load_weights_under header pt_model weight_map = (out, Ok after) ->
  header = as_reconstructed
  /\ out = []
  /\ after = pt_model
  /\ forall k, In k (state_names pt_model) -> weight_map !! k = None.
Proof.
  destruct header; [discriminate|].
  rewrite load_weights_reconstructed_outcome.
  destruct (matches weight_map (state_names pt_model)) eqn:E; [discriminate|].
  intros [= <- <-]. repeat split. apply matches_false, E.
Qed.

Lemma load_weights_never_loads_witness :
  as_reconstructed = as_reconstructed
  /\ @nil event = []
  /\ small_model = small_model
  /\ forall k, In k (state_names small_model) ->
               build_weight_map {| weights_tensors := [small_rope_freqs] |} !! k = None.
Proof.
  apply (load_weights_never_loads as_reconstructed small_model small_model
           (build_weight_map {| weights_tensors := [small_rope_freqs] |}) []).
  vm_compute. reflexivity.
Defined.



(** X14: the model that [_create_pt_model] returns is in evaluation mode,
    the root and every submodule (line 75); it carries the configuration
    built from the arguments, and it was instantiated exactly once. *)
Theorem created_model_in_eval_mode
        (args : GGUFModelArgs) (out : list event) (pt_model : model.Transformer) :
  _create_pt_model args = (out, Ok pt_model) ->
  llama_model_args args = Ok (model.params pt_model)
  /\ out = [instantiate (model.params pt_model)]
  /\ all_eval (model.root pt_model) = true.
Proof.
  intros H. destruct (create_pt_model_inv _ _ _ H) as (config & Hc & -> & ->).
  split; [exact Hc|]. split; [reflexivity|]. apply all_eval_eval.
Qed.

Lemma created_model_in_eval_mode_witness :
  llama_model_args small_args = Ok (model.params (instantiated small_config))
  /\ [instantiate small_config] = [instantiate (model.params (instantiated small_config))]
  /\ all_eval (model.root (instantiated small_config)) = true.
Proof.
  apply (created_model_in_eval_mode small_args [instantiate small_config]
           (instantiated small_config)).
  reflexivity.
Defined.
